(** * buzzapp/users: the HTTP handlers of [handlers.go]

  A shallow embedding of the four request handlers ([handleCreateUser],
  [handleGetUserByID], [handleLoginUser], [handleRefreshToken]) and of
  [respondWithError], together with the parts of the Go libraries they
  drive: [net/http]'s ResponseWriter, [encoding/json] and the [jwt-go]
  parser.

  A handler is a computation over a world made of the state of the injected
  [UserService], the log of the calls made to it, and the ResponseWriter of
  the request.  A Go panic (a failed type assertion, a nil dereference) ends
  the computation without running the rest of the handler. *)

From Stdlib Require Import Ascii.
From stdpp Require Import base option list strings gmap.

Set Warnings "-register-all".
Local Open Scope string_scope.
Local Open Scope Z_scope.

(** ** Go's [error] and multi-value returns *)

(** An [error] is represented by the text its [Error()] method returns. *)
Definition error := string.

(** A call returning [(v, err)]: the callers below test [err != nil] first and
  use [v] only when it is nil. *)
Inductive result (A : Type) : Type :=
| Ok (a : A)
| Err (e : error).
Arguments Ok {A} a.
Arguments Err {A} e.

(** A nilable pointer [*T]. *)
Abbreviation ptr T := (option T).

(** ** encoding/json *)
Module json.

(** The values [encoding/json] produces when it decodes into
    [interface{}]: nil, bool, float64, string, []interface{} and
    map[string]interface{}.  A float64 is kept as its 64-bit pattern; the
    handlers never look inside a number. *)
Inductive Value : Type :=
| Null
| Bool (b : bool)
| Number (bits : Z)
| String (s : string)
| Array (elems : list Value)
| Object (fields : list (string * Value)).

(** The two leaf encoders of the library: the quoting and escaping of a
    string literal, and the printing of a float64 (which fails on NaN and on
    the infinities). *)
Class Encoding : Type := {
  quote : string → string;
  formatFloat : Z → result string
}.

Fixpoint join (sep : string) (l : list string) : string :=
  match l with
  | [] => ""
  | [s] => s
  | s :: l' => s +:+ sep +:+ join sep l'
  end.

(** [json.Marshal] on a value tree: compact output, fields in order, the
    first failure aborts the encoding. *)
Fixpoint Marshal `{Encoding} (v : Value) : result string :=
  match v with
  | Null => Ok "null"
  | Bool b => Ok (if b then "true" else "false")
  | Number bits => formatFloat bits
  | String s => Ok (quote s)
  | Array elems =>
      let fix items (l : list Value) : result (list string) :=
        match l with
        | [] => Ok []
        | x :: l' =>
            match Marshal x with
            | Err e => Err e
            | Ok s =>
                match items l' with
                | Err e => Err e
                | Ok ss => Ok (s :: ss)
                end
            end
        end in
      match items elems with
      | Err e => Err e
      | Ok ss => Ok ("[" +:+ join "," ss +:+ "]")
      end
  | Object fields =>
      let fix members (l : list (string * Value)) : result (list string) :=
        match l with
        | [] => Ok []
        | (k, x) :: l' =>
            match Marshal x with
            | Err e => Err e
            | Ok s =>
                match members l' with
                | Err e => Err e
                | Ok ss => Ok ((quote k +:+ ":" +:+ s) :: ss)
                end
            end
        end in
      match members fields with
      | Err e => Err e
      | Ok ss => Ok ("{" +:+ join "," ss +:+ "}")
      end
  end.

(** [json.NewDecoder(body).Decode(&payload)] with [payload] a pointer to a
    struct of type [A]: an error, or the pointer after decoding.  The JSON
    document [null] decodes without error and leaves the pointer nil. *)
Class Decoder (A : Type) : Type :=
  Decode : string → result (ptr A).

(** How a Go value is laid out as JSON (its fields and their json tags). *)
Class ToJSON (A : Type) : Type :=
  toJSON : A → Value.

(** The dynamic type name Go prints for a value held in an [interface{}]. *)
Definition typeName (v : option Value) : string :=
  match v with
  | None | Some Null => "nil"
  | Some (Bool _) => "bool"
  | Some (Number _) => "float64"
  | Some (String _) => "string"
  | Some (Array _) => "[]interface {}"
  | Some (Object _) => "map[string]interface {}"
  end.

End json.

(** ** net/http *)
Module http.

Definition StatusOK : Z := 200.
Definition StatusCreated : Z := 201.
Definition StatusBadRequest : Z := 400.
Definition StatusForbidden : Z := 403.
Definition StatusInternalServerError : Z := 500.

(** [http.Header]: map[string][]string. *)
Abbreviation Header := (gmap string (list string)).

(** [Header.Get]: the first value of the key, or the empty string. *)
Definition Get (h : Header) (key : string) : string :=
  match h !! key with
  | Some (v :: _) => v
  | _ => ""
  end.

(** [Header.Set]: the key now holds exactly this value. *)
Definition Set_ (h : Header) (key value : string) : Header :=
  <[key := [value]]> h.

(** The request as the handlers read it: the body, the headers and the
    route variables [mux.Vars(r)]. *)
Record Request : Type := {
  Body : string;
  ReqHeader : Header;
  Vars : gmap string string
}.

Definition Referer (r : Request) : string := Get (ReqHeader r) "Referer".

(** The server's ResponseWriter.  [handlerHeader] is the map [w.Header()]
    returns; [WriteHeader] sends the status line with the headers as they
    are at that moment ([sentHeader]); changing the map afterwards has no
    effect on the response, and a second [WriteHeader] is ignored.  [Write]
    sends the headers with status 200 first if they were not sent yet.
    [sentHeader] holds what the handler contributed: for a response sent
    without a Content-Type the server picks one from the first bytes of the
    body ([http.DetectContentType], which has no JSON type). *)
Record ResponseWriter : Type := {
  handlerHeader : Header;
  wroteHeader : bool;
  status : Z;
  sentHeader : Header;
  body : string
}.

Definition newResponseWriter : ResponseWriter :=
  {| handlerHeader := ∅; wroteHeader := false; status := 0;
     sentHeader := ∅; body := "" |}.

Definition HeaderSet (key value : string) (w : ResponseWriter)
  : ResponseWriter :=
  {| handlerHeader := Set_ (handlerHeader w) key value;
     wroteHeader := wroteHeader w; status := status w;
     sentHeader := sentHeader w; body := body w |}.

Definition WriteHeader (code : Z) (w : ResponseWriter) : ResponseWriter :=
  if wroteHeader w then w
  else {| handlerHeader := handlerHeader w;
          wroteHeader := true; status := code;
          sentHeader := handlerHeader w; body := body w |}.

Definition Write (data : string) (w : ResponseWriter) : ResponseWriter :=
  let w := if wroteHeader w then w else WriteHeader StatusOK w in
  {| handlerHeader := handlerHeader w;
     wroteHeader := wroteHeader w; status := status w;
     sentHeader := sentHeader w; body := body w +:+ data |}.

(** The Content-Type the response was sent with, if the handler had set
    one by the time the headers went out. *)
Definition ContentType (w : ResponseWriter) : option (list string) :=
  sentHeader w !! "Content-Type".

End http.

(** ** fmt *)
Module fmt.

(** The [%v] verb on a value held in an [interface{}].  Strings print as
    themselves, nil as [<nil>], booleans as [true] and [false]; the printing
    of numbers, slices and maps is left to [formatOther]. *)
Class Formatter : Type :=
  formatOther : json.Value → string.

Definition verb_v `{Formatter} (v : option json.Value) : string :=
  match v with
  | None | Some json.Null => "<nil>"
  | Some (json.Bool b) => if b then "true" else "false"
  | Some (json.String s) => s
  | Some other => formatOther other
  end.

End fmt.

(** ** strings *)
Module strings.

(** [strings.Split(s, sep)] for a one-character separator. *)
Fixpoint Split (s : string) (sep : Ascii.ascii) : list string :=
  match s with
  | EmptyString => [""]
  | String c s' =>
      if decide (c = sep) then "" :: Split s' sep
      else match Split s' sep with
           | [] => [String c ""]
           | p :: ps => String c p :: ps
           end
  end.

End strings.

(** ** github.com/dgrijalva/jwt-go *)
Module jwt.

(** The signing methods the library registers. *)
Inductive SigningMethod : Type :=
| SigningMethodHS256
| SigningMethodHS384
| SigningMethodHS512
| SigningMethodRS256
| SigningMethodRS384
| SigningMethodRS512.

#[global] Instance SigningMethod_eq_dec : EqDecision SigningMethod.
Proof. solve_decision. Defined.

Definition GetSigningMethod (alg : string) : option SigningMethod :=
  if decide (alg = "HS256") then Some SigningMethodHS256
  else if decide (alg = "HS384") then Some SigningMethodHS384
  else if decide (alg = "HS512") then Some SigningMethodHS512
  else if decide (alg = "RS256") then Some SigningMethodRS256
  else if decide (alg = "RS384") then Some SigningMethodRS384
  else if decide (alg = "RS512") then Some SigningMethodRS512
  else None.

Record Token : Type := {
  Raw : string;
  Method : option SigningMethod;
  Header : gmap string json.Value;
  Claims : gmap string json.Value;
  Signature : string;
  Valid : bool
}.

(** [jwt.Keyfunc]: the key to verify the token with, or an error. *)
Definition Keyfunc : Type := Token → result string.

(** What the parser relies on: the decoding of one segment (base64url, then
    [json.Unmarshal] into a map), the signature check of a signing method on
    (signing input, signature, key), and the check of the [exp] and [nbf]
    claims against the clock. *)
Class Library : Type := {
  DecodeSegment : string → result (gmap string json.Value);
  Verify : SigningMethod → string → string → string → option error;
  timeError : gmap string json.Value → option error
}.

(** [ValidationError.Error()]. *)
Definition ValidationError (err : string) : error :=
  if decide (err = "") then "token is invalid" else err.

(** [jwt.Parse]: split into three segments, decode header and claims, look
    the signing method up from the [alg] header, ask [keyFunc] for the key,
    check the time claims and the signature.  The token is marked valid, and
    no error is returned, exactly when every step went through. *)
Definition Parse `{Library} (tokenString : string) (keyFunc : Keyfunc)
  : ptr Token * option error :=
  match strings.Split tokenString "."%char with
  | [p0; p1; p2] =>
      match DecodeSegment p0 with
      | Err e =>
          (Some {| Raw := tokenString; Method := None; Header := ∅;
                   Claims := ∅; Signature := ""; Valid := false |},
           Some (ValidationError e))
      | Ok header =>
          match DecodeSegment p1 with
          | Err e =>
              (Some {| Raw := tokenString; Method := None; Header := header;
                       Claims := ∅; Signature := ""; Valid := false |},
               Some (ValidationError e))
          | Ok claims =>
              match header !! "alg" with
              | Some (json.String alg) =>
                  match GetSigningMethod alg with
                  | None =>
                      (Some {| Raw := tokenString; Method := None;
                               Header := header; Claims := claims;
                               Signature := ""; Valid := false |},
                       Some (ValidationError
                               "signing method (alg) is unavailable."))
                  | Some method =>
                      let token :=
                        {| Raw := tokenString; Method := Some method;
                           Header := header; Claims := claims;
                           Signature := ""; Valid := false |} in
                      match keyFunc token with
                      | Err e => (Some token, Some (ValidationError e))
                      | Ok key =>
                          let vErr :=
                            match Verify method (p0 +:+ "." +:+ p1) p2 key with
                            | Some e => Some e
                            | None => timeError claims
                            end in
                          match vErr with
                          | Some e =>
                              (Some {| Raw := tokenString;
                                       Method := Some method;
                                       Header := header; Claims := claims;
                                       Signature := p2; Valid := false |},
                               Some (ValidationError e))
                          | None =>
                              (Some {| Raw := tokenString;
                                       Method := Some method;
                                       Header := header; Claims := claims;
                                       Signature := p2; Valid := true |},
                               None)
                          end
                      end
                  end
              | _ =>
                  (Some {| Raw := tokenString; Method := None;
                           Header := header; Claims := claims;
                           Signature := ""; Valid := false |},
                   Some (ValidationError
                           "signing method (alg) is unspecified."))
              end
          end
      end
  | _ =>
      (None, Some (ValidationError
                     "token contains an invalid number of segments"))
  end.

End jwt.

(** ** The repository's own types *)

Module model.

(** [model.CreateUser], as the handler builds it. *)
Record CreateUser : Type := {
  Email : string;
  FirstName : string;
  LastName : string;
  Password : string;
  Role : string;
  Username : string
}.

End model.

Module reqres.

Module CreateUserRequest.
Record t : Type := {
  Email : string;
  FirstName : string;
  LastName : string;
  Password : string;
  Role : string;
  Username : string
}.
End CreateUserRequest.

Module LoginRequest.
Record t : Type := {
  Username : string;
  Password : string
}.
End LoginRequest.

Module RefreshTokenRequest.
Record t : Type := {
  Token : string
}.
End RefreshTokenRequest.

Module CreateUserResponse.
Record t (U : Type) : Type := { User : U }.
Arguments User {U} _.
End CreateUserResponse.

Module GetUserResponse.
Record t (U : Type) : Type := { User : U }.
Arguments User {U} _.
End GetUserResponse.

Module LoginResponse.
Record t : Type := { Token : string }.
End LoginResponse.

Module ErrorResponse.
Record t : Type := { Message : string }.
End ErrorResponse.

(** Modelled from the spec: the struct declarations of package [reqres],
    with their json tags, are not among the sources.  The spec gives the
    bodies as [{user}], [{token}] and [{"message": ...}]: one field each,
    under the keys [user], [token] and [message]. *)
#[global] Instance CreateUserResponse_toJSON {U} `{json.ToJSON U}
  : json.ToJSON (CreateUserResponse.t U) :=
  λ r, json.Object [("user", json.toJSON (CreateUserResponse.User r))].

#[global] Instance GetUserResponse_toJSON {U} `{json.ToJSON U}
  : json.ToJSON (GetUserResponse.t U) :=
  λ r, json.Object [("user", json.toJSON (GetUserResponse.User r))].

#[global] Instance LoginResponse_toJSON : json.ToJSON LoginResponse.t :=
  λ r, json.Object [("token", json.String (LoginResponse.Token r))].

#[global] Instance ErrorResponse_toJSON : json.ToJSON ErrorResponse.t :=
  λ r, json.Object [("message", json.String (ErrorResponse.Message r))].

End reqres.

(** ** The collaborators of the handlers *)

(** The validation functions of the repository ([validateCreateUser] and its
    siblings), which are not among the sources: each takes what the handler
    passes it and returns nil or an error. *)
Class Validators : Type := {
  validateCreateUser : ptr reqres.CreateUserRequest.t → option error;
  validateGetUserByID : string → option error;
  validateLoginUser : ptr reqres.LoginRequest.t → option error;
  validateRefreshToken : ptr reqres.RefreshTokenRequest.t → option error
}.

(** The [UserService] interface over a service with state [S] and users of
    type [U]. *)
Class UserService (S U : Type) : Type := {
  Create : model.CreateUser → S → result U * S;
  GetByID : string → S → result U * S;
  Login : string → string → string → S → result string * S;
  RefreshToken : string → string → string → string → S → result string * S
}.

(** One entry of the call log: the method and its arguments. *)
Inductive ServiceCall : Type :=
| CallCreate (newUser : model.CreateUser)
| CallGetByID (id : string)
| CallLogin (username password referer : string)
| CallRefreshToken (sub username role referer : string).

(** How a handler invocation ends. *)
Inductive outcome (A : Type) : Type :=
| Returned (a : A)
| Panicked (msg : string).
Arguments Returned {A} a.
Arguments Panicked {A} msg.

Section Handlers.

Context {S U : Type}.
Context `{!UserService S U, !json.ToJSON U}.
Context `{!json.Encoding, !fmt.Formatter, !jwt.Library, !Validators}.
Context `{!json.Decoder reqres.CreateUserRequest.t}.
Context `{!json.Decoder reqres.LoginRequest.t}.
Context `{!json.Decoder reqres.RefreshTokenRequest.t}.

(** The process-wide signing secret. *)
Variable SecretKey : string.

Record World : Type := {
  svcState : S;
  calls : list ServiceCall;
  w : http.ResponseWriter
}.

Definition M (A : Type) : Type := World → outcome A * World.

Definition ret {A} (a : A) : M A := λ σ, (Returned a, σ).

Definition bind {A B} (m : M A) (k : A → M B) : M B :=
  λ σ, match m σ with
       | (Returned a, σ') => k a σ'
       | (Panicked msg, σ') => (Panicked msg, σ')
       end.

Definition panic {A} (msg : string) : M A := λ σ, (Panicked msg, σ).

Notation "x <- m ;; k" := (bind m (λ x, k))
  (at level 100, m at next level, right associativity).
Notation "m ;; k" := (bind m (λ _, k))
  (at level 100, right associativity).

(** The three operations on [w]. *)
Definition onWriter (f : http.ResponseWriter → http.ResponseWriter) : M unit :=
  λ σ, (Returned (),
        {| svcState := svcState σ; calls := calls σ; w := f (w σ) |}).

Definition HeaderSet (key value : string) : M unit :=
  onWriter (http.HeaderSet key value).
Definition WriteHeader (code : Z) : M unit := onWriter (http.WriteHeader code).
Definition Write (data : string) : M unit := onWriter (http.Write data).

(** A method call on [svc]: it is appended to the log and the service moves
    to its next state. *)
Definition invoke {A} (c : ServiceCall) (method : S → result A * S)
  : M (result A) :=
  λ σ, let (res, s') := method (svcState σ) in
       (Returned res,
        {| svcState := s'; calls := calls σ ++ [c]; w := w σ |}).

(** A field access through a pointer. *)
Definition deref {A} (p : ptr A) : M A :=
  match p with
  | Some a => ret a
  | None => panic "runtime error: invalid memory address or nil pointer dereference"
  end.

(** The type assertion [v.(string)] on an [interface{}]. *)
Definition assertString (v : option json.Value) : M string :=
  match v with
  | Some (json.String s) => ret s
  | _ => panic ("interface conversion: interface {} is "
                +:+ json.typeName v +:+ ", not string")
  end.

(** Helper function to return a json error message *)
Definition respondWithError (msg : string) (err : error) (status : Z)
  : M unit :=
  let errMsg := {| reqres.ErrorResponse.Message := msg +:+ ": " +:+ err |} in
  match json.Marshal (json.toJSON errMsg) with
  | Err _ =>
      HeaderSet "Content-Type" "application/json; charset=UTF-8" ;;
      WriteHeader status
  | Ok js =>
      HeaderSet "Content-Type" "application/json" ;;
      WriteHeader status ;;
      Write js
  end.

Definition handleCreateUser (r : http.Request) : M unit :=
  match json.Decode (A := reqres.CreateUserRequest.t) (http.Body r) with
  | Err err =>
      respondWithError "unable to decode json request" err
        http.StatusInternalServerError
  | Ok payload =>
      match validateCreateUser payload with
      | Some err =>
          respondWithError "Validation error" err http.StatusBadRequest
      | None =>
          p <- deref payload ;;
          let newUser :=
            {| model.Email := reqres.CreateUserRequest.Email p;
               model.FirstName := reqres.CreateUserRequest.FirstName p;
               model.LastName := reqres.CreateUserRequest.LastName p;
               model.Password := reqres.CreateUserRequest.Password p;
               model.Role := reqres.CreateUserRequest.Role p;
               model.Username := reqres.CreateUserRequest.Username p |} in
          res <- invoke (CallCreate newUser) (Create newUser) ;;
          match res with
          | Err err =>
              respondWithError "unable to add user" err
                http.StatusInternalServerError
          | Ok user =>
              let resp := {| reqres.CreateUserResponse.User := user |} in
              match json.Marshal (json.toJSON resp) with
              | Err err =>
                  respondWithError "unable to marshal json response" err
                    http.StatusInternalServerError
              | Ok js =>
                  WriteHeader http.StatusCreated ;;
                  HeaderSet "Content-Type" "application/json" ;;
                  Write js
              end
          end
      end
  end.

Definition handleGetUserByID (r : http.Request) : M unit :=
  let id := default "" (http.Vars r !! "id") in
  match validateGetUserByID id with
  | Some err => respondWithError "Validation error" err http.StatusBadRequest
  | None =>
      res <- invoke (CallGetByID id) (GetByID id) ;;
      match res with
      | Err err =>
          respondWithError "unable to get user" err
            http.StatusInternalServerError
      | Ok user =>
          let resp := {| reqres.GetUserResponse.User := user |} in
          match json.Marshal (json.toJSON resp) with
          | Err err =>
              respondWithError "unable to marshal json response" err
                http.StatusInternalServerError
          | Ok js =>
              WriteHeader http.StatusOK ;;
              HeaderSet "Content-Type" "application/json" ;;
              Write js
          end
      end
  end.

Definition handleLoginUser (r : http.Request) : M unit :=
  match json.Decode (A := reqres.LoginRequest.t) (http.Body r) with
  | Err err =>
      respondWithError "unable to decode json request" err
        http.StatusInternalServerError
  | Ok payload =>
      match validateLoginUser payload with
      | Some err =>
          respondWithError "Validation error" err http.StatusBadRequest
      | None =>
          p <- deref payload ;;
          let username := reqres.LoginRequest.Username p in
          let password := reqres.LoginRequest.Password p in
          let referer := http.Referer r in
          res <- invoke (CallLogin username password referer)
                        (Login username password referer) ;;
          match res with
          | Err err =>
              respondWithError "unable to log in user" err
                http.StatusBadRequest
          | Ok token =>
              let resp := {| reqres.LoginResponse.Token := token |} in
              match json.Marshal (json.toJSON resp) with
              | Err err =>
                  respondWithError "unable to marshal json response" err
                    http.StatusInternalServerError
              | Ok js =>
                  WriteHeader http.StatusOK ;;
                  HeaderSet "Content-Type" "application/json" ;;
                  Write js
              end
          end
      end
  end.

(** The key function the refresh handler gives to [jwt.Parse]. *)
Definition keyFunc (token : jwt.Token) : result string :=
  if decide (jwt.Method token ≠ Some jwt.SigningMethodHS256)
  then Err ("Unexpected signing method: "
            +:+ fmt.verb_v (jwt.Header token !! "alg"))
  else Ok SecretKey.

(** The refresh handler over the token parser it calls. *)
Definition handleRefreshTokenWith
    (Parse : string → jwt.Keyfunc → ptr jwt.Token * option error)
    (r : http.Request) : M unit :=
  match json.Decode (A := reqres.RefreshTokenRequest.t) (http.Body r) with
  | Err err =>
      respondWithError "unable to decode json request" err
        http.StatusInternalServerError
  | Ok payload =>
      match validateRefreshToken payload with
      | Some err =>
          respondWithError "Validation error" err http.StatusBadRequest
      | None =>
          p <- deref payload ;;
          match Parse (reqres.RefreshTokenRequest.Token p) keyFunc with
          | (_, Some err) =>
              respondWithError "Access not allowed" err http.StatusForbidden
          | (token, None) =>
              tok <- deref token ;;
              if negb (jwt.Valid tok) then
                respondWithError "Access not allowed" "Invalid jwt token"
                  http.StatusForbidden
              else
                sub <- assertString (jwt.Claims tok !! "sub") ;;
                username <- assertString (jwt.Claims tok !! "username") ;;
                role <- assertString (jwt.Claims tok !! "role") ;;
                let referer := http.Referer r in
                res <- invoke (CallRefreshToken sub username role referer)
                              (RefreshToken sub username role referer) ;;
                match res with
                | Err err =>
                    respondWithError "unable to refresh token" err
                      http.StatusInternalServerError
                | Ok jwtToken =>
                    let resp := {| reqres.LoginResponse.Token := jwtToken |} in
                    match json.Marshal (json.toJSON resp) with
                    | Err err =>
                        respondWithError "unable to marshal json response" err
                          http.StatusInternalServerError
                    | Ok js =>
                        WriteHeader http.StatusOK ;;
                        HeaderSet "Content-Type" "application/json" ;;
                        Write js
                    end
                end
          end
      end
  end.

Definition handleRefreshToken : http.Request → M unit :=
  handleRefreshTokenWith jwt.Parse.

(** Serving one request: the handler runs on a fresh ResponseWriter and an
    empty call log, from the service state [s]. *)
Definition serve (h : M unit) (s : S) : outcome unit * World :=
  h {| svcState := s; calls := []; w := http.newResponseWriter |}.

(** The four handlers of the file. *)
Inductive HandlerName : Type :=
| CreateUserHandler
| GetUserByIDHandler
| LoginHandler
| RefreshTokenHandler.

Definition handle (h : HandlerName) : http.Request → M unit :=
  match h with
  | CreateUserHandler => handleCreateUser
  | GetUserByIDHandler => handleGetUserByID
  | LoginHandler => handleLoginUser
  | RefreshTokenHandler => handleRefreshToken
  end.

(** The world a request leaves behind. *)
Definition final (h : M unit) (s : S) : World := (serve h s).2.

(** ** Vocabulary of the properties *)

(** The error of decoding the request body, for the handlers that decode
    one; [handleGetUserByID] reads only the route variable. *)
Definition decodeError (h : HandlerName) (r : http.Request) : option error :=
  let failure {A} (d : result (ptr A)) : option error :=
    match d with Err e => Some e | Ok _ => None end in
  match h with
  | CreateUserHandler =>
      failure (json.Decode (A := reqres.CreateUserRequest.t) (http.Body r))
  | GetUserByIDHandler => None
  | LoginHandler =>
      failure (json.Decode (A := reqres.LoginRequest.t) (http.Body r))
  | RefreshTokenHandler =>
      failure (json.Decode (A := reqres.RefreshTokenRequest.t) (http.Body r))
  end.

(** A body that none of the three request types decodes from. *)
Definition malformedBody (b : string) : bool :=
  match json.Decode (A := reqres.CreateUserRequest.t) b,
        json.Decode (A := reqres.LoginRequest.t) b,
        json.Decode (A := reqres.RefreshTokenRequest.t) b with
  | Err _, Err _, Err _ => true
  | _, _, _ => false
  end.

(** The error the handler's validation function returns on the input of the
    request, when the handler gets as far as validating it. *)
Definition validationError (h : HandlerName) (r : http.Request)
  : option error :=
  match h with
  | CreateUserHandler =>
      match json.Decode (http.Body r) with
      | Ok payload => validateCreateUser payload
      | Err _ => None
      end
  | GetUserByIDHandler =>
      validateGetUserByID (default "" (http.Vars r !! "id"))
  | LoginHandler =>
      match json.Decode (http.Body r) with
      | Ok payload => validateLoginUser payload
      | Err _ => None
      end
  | RefreshTokenHandler =>
      match json.Decode (http.Body r) with
      | Ok payload => validateRefreshToken payload
      | Err _ => None
      end
  end.

(** The signing method a token string names in its header, if the string
    has three segments and its header decodes. *)
Definition tokenMethod (tokenString : string) : option jwt.SigningMethod :=
  match strings.Split tokenString "."%char with
  | [p0; p1; p2] =>
      match jwt.DecodeSegment p0 with
      | Ok header =>
          match header !! "alg" with
          | Some (json.String alg) => jwt.GetSigningMethod alg
          | _ => None
          end
      | Err _ => None
      end
  | _ => None
  end.

(** The claims of a token that verifies under [key]: three segments that
    decode, the [alg] header [HS256], a signature that HMAC-SHA256 accepts
    for [key], and time claims that hold. *)
Definition verifiedClaims (key tokenString : string)
  : option (gmap string json.Value) :=
  match strings.Split tokenString "."%char with
  | [p0; p1; p2] =>
      match jwt.DecodeSegment p0, jwt.DecodeSegment p1 with
      | Ok header, Ok claims =>
          match header !! "alg" with
          | Some (json.String alg) =>
              if decide (alg = "HS256") then
                match jwt.Verify jwt.SigningMethodHS256
                        (p0 +:+ "." +:+ p1) p2 key,
                      jwt.timeError claims with
                | None, None => Some claims
                | _, _ => None
                end
              else None
          | _ => None
          end
      | _, _ => None
      end
  | _ => None
  end.

Definition isString (v : option json.Value) : bool :=
  match v with
  | Some (json.String _) => true
  | _ => false
  end.

(** The JSON text of the object [{"message": "<context>: <err>"}]. *)
Definition errorBody (context : string) (err : error) : string :=
  "{" +:+ (json.quote "message" +:+ ":"
            +:+ json.quote (context +:+ ": " +:+ err)) +:+ "}".

(** The JSON text of the object [{"token": <token>}]. *)
Definition tokenBody (token : string) : string :=
  "{" +:+ (json.quote "token" +:+ ":" +:+ json.quote token) +:+ "}".

(** The JSON text of the object [{"user": <user>}], given the text of the
    user. *)
Definition userBody (userJSON : string) : string :=
  "{" +:+ (json.quote "user" +:+ ":" +:+ userJSON) +:+ "}".

(** The writer after [respondWithError] on a fresh ResponseWriter. *)
Definition errorResponse (status : Z) (context : string) (err : error)
  : http.ResponseWriter :=
  {| http.handlerHeader := {[ "Content-Type" := ["application/json"] ]};
     http.wroteHeader := true;
     http.status := status;
     http.sentHeader := {[ "Content-Type" := ["application/json"] ]};
     http.body := errorBody context err |}.

(** The writer after the closing lines of a successful handler on a fresh
    ResponseWriter: [WriteHeader] first, so the headers go out as they are
    then; the Content-Type set afterwards stays in the handler's map; then
    the body. *)
Definition successResponse (status : Z) (js : string) : http.ResponseWriter :=
  {| http.handlerHeader := {[ "Content-Type" := ["application/json"] ]};
     http.wroteHeader := true;
     http.status := status;
     http.sentHeader := ∅;
     http.body := js |}.

(** The context strings the handlers pass to [respondWithError]. *)
Definition errorContexts : list string :=
  [ "unable to decode json request"; "Validation error";
    "unable to add user"; "unable to get user"; "unable to log in user";
    "Access not allowed"; "unable to refresh token";
    "unable to marshal json response" ].

(** The ways a handler can leave a request: an error response written by
    [respondWithError], a success response, or a panic before anything was
    written. *)
Inductive Answer : outcome unit → http.ResponseWriter → Prop :=
| AnswerError (status : Z) (context : string) (err : error) :
    In context errorContexts →
    In status [http.StatusBadRequest; http.StatusForbidden;
               http.StatusInternalServerError] →
    Answer (Returned ()) (errorResponse status context err)
| AnswerSuccess (status : Z) (js : string) :
    In status [http.StatusOK; http.StatusCreated] →
    Answer (Returned ()) (successResponse status js)
| AnswerPanic (msg : string) :
    Answer (Panicked msg) http.newResponseWriter.

End Handlers.

(** ** A concrete deployment

    A small instance of every collaborator, on which the handlers run by
    computation: bodies and token segments are looked up in tables, the
    signature of a token is a tag naming the key, and the service keeps the
    users it created. *)
Module Demo.

Definition dq : string := String (Ascii.ascii_of_nat 34) EmptyString.

Definition encoding : json.Encoding :=
  {| json.quote := λ s, dq +:+ s +:+ dq;
     json.formatFloat := λ _, Err "json: unsupported value" |}.

Definition formatter : fmt.Formatter := λ _, "?".

Record User : Type := {
  ID : string;
  Name : string;
  UserRole : string
}.

Definition User_toJSON : json.ToJSON User :=
  λ u, json.Object [("id", json.String (ID u));
                    ("username", json.String (Name u));
                    ("role", json.String (UserRole u))].

(** Request bodies. *)
Definition field (k v : string) : string := dq +:+ k +:+ dq +:+ ":" +:+ dq +:+ v +:+ dq.

Definition createBody : string :=
  "{" +:+ field "email" "alice@example.com" +:+ ","
      +:+ field "first_name" "Alice" +:+ ","
      +:+ field "last_name" "Liddell" +:+ ","
      +:+ field "password" "rabbit" +:+ ","
      +:+ field "role" "admin" +:+ ","
      +:+ field "username" "alice" +:+ "}".

Definition createPayload : reqres.CreateUserRequest.t :=
  {| reqres.CreateUserRequest.Email := "alice@example.com";
     reqres.CreateUserRequest.FirstName := "Alice";
     reqres.CreateUserRequest.LastName := "Liddell";
     reqres.CreateUserRequest.Password := "rabbit";
     reqres.CreateUserRequest.Role := "admin";
     reqres.CreateUserRequest.Username := "alice" |}.

Definition loginBody : string :=
  "{" +:+ field "username" "alice" +:+ ","
      +:+ field "password" "rabbit" +:+ "}".

Definition loginNoPasswordBody : string :=
  "{" +:+ field "username" "alice" +:+ "}".

Definition refreshBody (token : string) : string :=
  "{" +:+ field "token" token +:+ "}".

(** Tokens: header, claims and signature segments. *)
Definition sign (key : string) : string := "mac-" +:+ key.

Definition secret : string := "s3cret".

Definition aliceToken : string :=
  "hs256.alice." +:+ sign secret.
Definition hs384Token : string :=
  "hs384.alice." +:+ sign secret.
Definition noRoleToken : string :=
  "hs256.norole." +:+ sign secret.

Definition jwtLibrary : jwt.Library :=
  {| jwt.DecodeSegment := λ seg,
       if decide (seg = "hs256") then
         Ok {[ "alg" := json.String "HS256"; "typ" := json.String "JWT" ]}
       else if decide (seg = "hs384") then
         Ok {[ "alg" := json.String "HS384"; "typ" := json.String "JWT" ]}
       else if decide (seg = "alice") then
         Ok {[ "sub" := json.String "u1";
               "username" := json.String "alice";
               "role" := json.String "admin" ]}
       else if decide (seg = "norole") then
         Ok {[ "sub" := json.String "u1";
               "username" := json.String "alice" ]}
       else Err "illegal base64 data at input byte 0";
     jwt.Verify := λ _ signingInput signature key,
       if decide (signature = sign key) then None
       else Some "signature is invalid";
     jwt.timeError := λ _, None |}.

Definition createDecoder : json.Decoder reqres.CreateUserRequest.t :=
  λ b, if decide (b = createBody) then Ok (Some createPayload)
       else if decide (b = "null") then Ok None
       else Err "unexpected end of JSON input".

Definition loginDecoder : json.Decoder reqres.LoginRequest.t :=
  λ b, if decide (b = loginBody) then
         Ok (Some {| reqres.LoginRequest.Username := "alice";
                     reqres.LoginRequest.Password := "rabbit" |})
       else if decide (b = loginNoPasswordBody) then
         Ok (Some {| reqres.LoginRequest.Username := "alice";
                     reqres.LoginRequest.Password := "" |})
       else if decide (b = "null") then Ok None
       else Err "unexpected end of JSON input".

Definition refreshDecoder : json.Decoder reqres.RefreshTokenRequest.t :=
  λ b, if decide (b = refreshBody aliceToken) then
         Ok (Some {| reqres.RefreshTokenRequest.Token := aliceToken |})
       else if decide (b = refreshBody hs384Token) then
         Ok (Some {| reqres.RefreshTokenRequest.Token := hs384Token |})
       else if decide (b = refreshBody noRoleToken) then
         Ok (Some {| reqres.RefreshTokenRequest.Token := noRoleToken |})
       else if decide (b = "null") then Ok None
       else Err "unexpected end of JSON input".

Definition required (name value : string) : option error :=
  if decide (value = "") then Some (name +:+ " is required") else None.

Definition validators : Validators :=
  {| validateCreateUser := λ payload,
       match payload with
       | None => Some "request is required"
       | Some p =>
           match required "email" (reqres.CreateUserRequest.Email p) with
           | Some e => Some e
           | None => required "username" (reqres.CreateUserRequest.Username p)
           end
       end;
     validateGetUserByID := λ id, required "id" id;
     validateLoginUser := λ payload,
       match payload with
       | None => Some "request is required"
       | Some p =>
           match required "username" (reqres.LoginRequest.Username p) with
           | Some e => Some e
           | None => required "password" (reqres.LoginRequest.Password p)
           end
       end;
     validateRefreshToken := λ payload,
       match payload with
       | None => Some "request is required"
       | Some p => required "token" (reqres.RefreshTokenRequest.Token p)
       end |}.

(** The service: the users created so far, with ids [u1], [u2], ... *)
Definition alice : User := {| ID := "u1"; Name := "alice"; UserRole := "admin" |}.

Definition service : UserService (list User) User :=
  {| Create := λ newUser s,
       let u := {| ID := "u1"; Name := model.Username newUser;
                   UserRole := model.Role newUser |} in
       if decide (s = []) then (Ok u, [u])
       else (Err "user already exists", s);
     GetByID := λ id s,
       match s with
       | u :: _ => if decide (id = ID u) then (Ok u, s)
                   else (Err "user not found", s)
       | [] => (Err "user not found", s)
       end;
     Login := λ username password referer s,
       if decide (password = "rabbit") then (Ok ("token-of-" +:+ username), s)
       else (Err "wrong credentials", s);
     RefreshToken := λ sub username role referer s,
       (Ok ("fresh-token-of-" +:+ username), s) |}.

Definition emptyStore : list User := [].

Definition request (body : string) : http.Request :=
  {| http.Body := body;
     http.ReqHeader := {[ "Referer" := ["https://buzz.example/app"] ]};
     http.Vars := ∅ |}.

Definition getRequest (id body : string) : http.Request :=
  {| http.Body := body;
     http.ReqHeader := ∅;
     http.Vars := {[ "id" := id ]} |}.

(** A parser that returns a token it did not mark valid, and no error. *)
Definition laxParse (tokenString : string) (keyFunc : jwt.Keyfunc)
  : ptr jwt.Token * option error :=
  (Some {| jwt.Raw := tokenString; jwt.Method := Some jwt.SigningMethodHS256;
           jwt.Header := ∅;
           jwt.Claims := {[ "sub" := json.String "u1";
                            "username" := json.String "alice";
                            "role" := json.String "admin" ]};
           jwt.Signature := ""; jwt.Valid := false |},
   None).

End Demo.

(** A second deployment: the JSON of a user carries a number the encoder
    cannot print, and the service is down. *)
Module DemoDown.

Definition nan : Z := 0x7FF8000000000000.

Definition User_toJSON : json.ToJSON Demo.User :=
  λ u, json.Object [("id", json.String (Demo.ID u));
                    ("score", json.Number nan)].

Definition service : UserService (list Demo.User) Demo.User :=
  {| Create := λ newUser s, (Err "database unavailable", s);
     GetByID := λ id s, (Err "database unavailable", s);
     Login := λ username password referer s,
       (Err "database unavailable", s);
     RefreshToken := λ sub username role referer s,
       (Err "database unavailable", s) |}.

End DemoDown.

(** ** The handlers side by side

    What the four handlers share, as tables read off the file: the method
    each delegates to, the status of its success response, the status and
    context of a failure of that method, and the failures it answers before
    it reaches the service. *)

Definition calledBy (c : ServiceCall) : HandlerName :=
  match c with
  | CallCreate _ => CreateUserHandler
  | CallGetByID _ => GetUserByIDHandler
  | CallLogin _ _ _ => LoginHandler
  | CallRefreshToken _ _ _ _ => RefreshTokenHandler
  end.

Definition successStatus (h : HandlerName) : Z :=
  match h with
  | CreateUserHandler => http.StatusCreated
  | _ => http.StatusOK
  end.

Definition serviceFailure (h : HandlerName) : Z * string :=
  match h with
  | CreateUserHandler =>
      (http.StatusInternalServerError, "unable to add user")
  | GetUserByIDHandler =>
      (http.StatusInternalServerError, "unable to get user")
  | LoginHandler => (http.StatusBadRequest, "unable to log in user")
  | RefreshTokenHandler =>
      (http.StatusInternalServerError, "unable to refresh token")
  end.

Definition rejections (h : HandlerName) : list (Z * string) :=
  match h with
  | GetUserByIDHandler => [(http.StatusBadRequest, "Validation error")]
  | CreateUserHandler | LoginHandler =>
      [(http.StatusInternalServerError, "unable to decode json request");
       (http.StatusBadRequest, "Validation error")]
  | RefreshTokenHandler =>
      [(http.StatusInternalServerError, "unable to decode json request");
       (http.StatusBadRequest, "Validation error");
       (http.StatusForbidden, "Access not allowed")]
  end.

(** The status codes each handler can answer with. *)
Definition statuses (h : HandlerName) : list Z :=
  match h with
  | CreateUserHandler =>
      [http.StatusCreated; http.StatusBadRequest;
       http.StatusInternalServerError]
  | GetUserByIDHandler | LoginHandler =>
      [http.StatusOK; http.StatusBadRequest; http.StatusInternalServerError]
  | RefreshTokenHandler =>
      [http.StatusOK; http.StatusBadRequest; http.StatusForbidden;
       http.StatusInternalServerError]
  end.

(** The [model.CreateUser] the create handler builds from a payload. *)
Definition newUserOf (p : reqres.CreateUserRequest.t) : model.CreateUser :=
  {| model.Email := reqres.CreateUserRequest.Email p;
     model.FirstName := reqres.CreateUserRequest.FirstName p;
     model.LastName := reqres.CreateUserRequest.LastName p;
     model.Password := reqres.CreateUserRequest.Password p;
     model.Role := reqres.CreateUserRequest.Role p;
     model.Username := reqres.CreateUserRequest.Username p |}.

(** The first of the claims [sub], [username], [role] that is not a string,
    in the order the handler asserts them. *)
Definition firstOffender (claims : gmap string json.Value)
  : option (option json.Value) :=
  if negb (isString (claims !! "sub")) then Some (claims !! "sub")
  else if negb (isString (claims !! "username")) then
    Some (claims !! "username")
  else if negb (isString (claims !! "role")) then Some (claims !! "role")
  else None.

Section Runs.

Context {S U : Type}.
Context `{!UserService S U, !json.ToJSON U}.
Context `{!json.Encoding, !fmt.Formatter, !jwt.Library, !Validators}.
Context `{!json.Decoder reqres.CreateUserRequest.t}.
Context `{!json.Decoder reqres.LoginRequest.t}.
Context `{!json.Decoder reqres.RefreshTokenRequest.t}.

(** The response after the service was called: the success response, the
    failure of the method, or the failure to marshal its result. *)
Inductive Delegated (h : HandlerName) : http.ResponseWriter → Prop :=
| DelegatedSuccess (js : string) :
    Delegated h (successResponse (successStatus h) js)
| DelegatedFailure (e : error) :
    Delegated h (errorResponse (serviceFailure h).1 (serviceFailure h).2 e)
| DelegatedUnmarshalled (e : error) :
    Delegated h (errorResponse http.StatusInternalServerError
                   "unable to marshal json response" e).

(** The shapes a run of handler [h] from service state [s] can take. *)
Inductive Run (h : HandlerName) (s : S) : outcome unit * World → Prop :=
| RunPanicked (msg : string) :
    Run h s (Panicked msg,
             {| svcState := s; calls := []; w := http.newResponseWriter |})
| RunRejected (status : Z) (context : string) (e : error) :
    In (status, context) (rejections h) →
    Run h s (Returned (),
             {| svcState := s; calls := [];
                w := errorResponse status context e |})
| RunDelegated (c : ServiceCall) (s' : S) (rw : http.ResponseWriter) :
    calledBy c = h →
    Delegated h rw →
    Run h s (Returned (), {| svcState := s'; calls := [c]; w := rw |}).

End Runs.

(** ** The failure behind an error response *)

Section Failures.

Context {S U : Type}.
Context `{!UserService S U, !json.ToJSON U}.
Context `{!json.Encoding, !fmt.Formatter, !jwt.Library, !Validators}.
Context `{!json.Decoder reqres.CreateUserRequest.t}.
Context `{!json.Decoder reqres.LoginRequest.t}.
Context `{!json.Decoder reqres.RefreshTokenRequest.t}.
Variable SecretKey : string.

(** The failure of [json.Marshal] on a response, if it fails. *)
Definition marshalFailure {A} `{!json.ToJSON A} (resp : A)
  : option (Z * string * error) :=
  match json.Marshal (json.toJSON resp) with
  | Err e =>
      Some (http.StatusInternalServerError,
            "unable to marshal json response", e)
  | Ok _ => None
  end.

(** The failure a request meets in handler [h] from service state [s], read
    off the collaborators in the order the handler consults them: the
    status and the context string the file gives that failure, and the error
    underneath (the decoder's, the validator's, the token parser's or
    "Invalid jwt token", the service's, the marshaller's).  [None] when the
    request meets no failure: it succeeds, or the handler panics. *)
Definition failureOf (h : HandlerName) (r : http.Request) (s : S)
  : option (Z * string * error) :=
  match decodeError h r with
  | Some e =>
      Some (http.StatusInternalServerError,
            "unable to decode json request", e)
  | None =>
  match validationError h r with
  | Some e => Some (http.StatusBadRequest, "Validation error", e)
  | None =>
  match h with
  | CreateUserHandler =>
      match json.Decode (http.Body r) with
      | Ok (Some p) =>
          match (Create (newUserOf p) s).1 with
          | Err e =>
              Some (http.StatusInternalServerError, "unable to add user", e)
          | Ok user =>
              marshalFailure {| reqres.CreateUserResponse.User := user |}
          end
      | _ => None
      end
  | GetUserByIDHandler =>
      match (GetByID (default "" (http.Vars r !! "id")) s).1 with
      | Err e =>
          Some (http.StatusInternalServerError, "unable to get user", e)
      | Ok user => marshalFailure {| reqres.GetUserResponse.User := user |}
      end
  | LoginHandler =>
      match json.Decode (http.Body r) with
      | Ok (Some p) =>
          match (Login (reqres.LoginRequest.Username p)
                   (reqres.LoginRequest.Password p) (http.Referer r) s).1 with
          | Err e =>
              Some (http.StatusBadRequest, "unable to log in user", e)
          | Ok token =>
              marshalFailure {| reqres.LoginResponse.Token := token |}
          end
      | _ => None
      end
  | RefreshTokenHandler =>
      match json.Decode (http.Body r) with
      | Ok (Some p) =>
          match jwt.Parse (reqres.RefreshTokenRequest.Token p)
                  (keyFunc SecretKey) with
          | (_, Some e) =>
              Some (http.StatusForbidden, "Access not allowed", e)
          | (None, None) => None
          | (Some tok, None) =>
              if negb (jwt.Valid tok) then
                Some (http.StatusForbidden, "Access not allowed",
                      "Invalid jwt token")
              else
                match jwt.Claims tok !! "sub",
                      jwt.Claims tok !! "username",
                      jwt.Claims tok !! "role" with
                | Some (json.String sub), Some (json.String username),
                  Some (json.String role) =>
                    match (RefreshToken sub username role
                             (http.Referer r) s).1 with
                    | Err e =>
                        Some (http.StatusInternalServerError,
                              "unable to refresh token", e)
                    | Ok jwtToken =>
                        marshalFailure
                          {| reqres.LoginResponse.Token := jwtToken |}
                    end
                | _, _, _ => None
                end
          end
      | _ => None
      end
  end
  end
  end.

End Failures.

(** * Properties of the handlers *)

Section Properties.

Context {S U : Type}.
Context `{!UserService S U, !json.ToJSON U}.
Context `{!json.Encoding, !fmt.Formatter, !jwt.Library, !Validators}.
Context `{!json.Decoder reqres.CreateUserRequest.t}.
Context `{!json.Decoder reqres.LoginRequest.t}.
Context `{!json.Decoder reqres.RefreshTokenRequest.t}.
Variable SecretKey : string.

(** ** The error helper *)

Lemma Marshal_ErrorResponse (m : string) :
  json.Marshal (json.toJSON {| reqres.ErrorResponse.Message := m |})
  = Ok ("{" +:+ (json.quote "message" +:+ ":" +:+ json.quote m) +:+ "}").
Proof. reflexivity. Qed.

Lemma Marshal_LoginResponse (t : string) :
  json.Marshal (json.toJSON {| reqres.LoginResponse.Token := t |})
  = Ok (tokenBody t).
Proof. reflexivity. Qed.

Lemma Marshal_singleton_object (k : string) (v : json.Value) :
  json.Marshal (json.Object [(k, v)])
  = match json.Marshal v with
    | Ok js => Ok ("{" +:+ (json.quote k +:+ ":" +:+ js) +:+ "}")
    | Err e => Err e
    end.
Proof. cbn. destruct (json.Marshal v); reflexivity. Qed.

Lemma respondWithError_fresh (msg : string) (err : error) (status : Z)
    (s : S) (cs : list ServiceCall) :
  respondWithError msg err status
    {| svcState := s; calls := cs; w := http.newResponseWriter |}
  = (Returned (),
     {| svcState := s; calls := cs; w := errorResponse status msg err |}).
Proof. reflexivity. Qed.

(** A header set after [WriteHeader] stays in the handler's map and is not
    part of what was sent; one set before it is. *)
Lemma HeaderSet_after_WriteHeader (key value data : string) (code : Z)
    (rw : http.ResponseWriter) :
  http.wroteHeader rw = false →
  http.sentHeader
    (http.Write data (http.HeaderSet key value (http.WriteHeader code rw)))
  = http.handlerHeader rw.
Proof. intros Hw. unfold http.Write, http.WriteHeader. rewrite Hw. done. Qed.

Lemma HeaderSet_before_WriteHeader (key value data : string) (code : Z)
    (rw : http.ResponseWriter) :
  http.wroteHeader rw = false →
  http.sentHeader
    (http.Write data (http.WriteHeader code (http.HeaderSet key value rw)))
    !! key
  = Some [value].
Proof.
  intros Hw. unfold http.Write, http.WriteHeader, http.HeaderSet, http.Set_.
  cbn. rewrite Hw. cbn. apply lookup_insert_eq.
Qed.

(** ** Runs that end in an error response *)

Lemma decode_failure_run (h : HandlerName) (r : http.Request) (s : S)
    (e : error) :
  decodeError h r = Some e →
  serve (handle SecretKey h r) s
  = (Returned (),
     {| svcState := s; calls := [];
        w := errorResponse http.StatusInternalServerError
               "unable to decode json request" e |}).
Proof.
  intros He. unfold serve.
  destruct h; cbn in He; try discriminate;
    cbn [handle]; unfold handleRefreshToken, handleRefreshTokenWith,
      handleCreateUser, handleLoginUser;
    destruct (json.Decode (http.Body r)) as [payload|e']; try discriminate;
    injection He as ->; apply respondWithError_fresh.
Qed.

Lemma validation_failure_run (h : HandlerName) (r : http.Request) (s : S)
    (e : error) :
  validationError h r = Some e →
  serve (handle SecretKey h r) s
  = (Returned (),
     {| svcState := s; calls := [];
        w := errorResponse http.StatusBadRequest "Validation error" e |}).
Proof.
  intros He. unfold serve.
  destruct h; cbn in He; cbn [handle];
    unfold handleRefreshToken, handleRefreshTokenWith, handleCreateUser,
      handleLoginUser, handleGetUserByID.
  - destruct (json.Decode (http.Body r)) as [payload|e']; try discriminate.
    rewrite He. apply respondWithError_fresh.
  - cbn zeta. rewrite He. apply respondWithError_fresh.
  - destruct (json.Decode (http.Body r)) as [payload|e']; try discriminate.
    rewrite He. apply respondWithError_fresh.
  - destruct (json.Decode (http.Body r)) as [payload|e']; try discriminate.
    rewrite He. apply respondWithError_fresh.
Qed.

(** C4: when the input of a request fails the validation function of its
    handler, the handler answers 400 and makes no call to the UserService
    (the call log stays empty and the service state is untouched). *)
Theorem validation_failure_400_no_service_call
    (h : HandlerName) (r : http.Request) (s : S) (e : error) :
  validationError h r = Some e →
  (serve (handle SecretKey h r) s).1 = Returned () ∧
  http.status (w (final (handle SecretKey h r) s)) = http.StatusBadRequest ∧
  calls (final (handle SecretKey h r) s) = [] ∧
  svcState (final (handle SecretKey h r) s) = s.
Proof.
  intros He. unfold final.
  rewrite (validation_failure_run h r s e He). repeat split.
Qed.

(** C5, amended: when the body of a request cannot be decoded, each handler
    that decodes a body (create user, login, refresh token) answers 500 with
    the message "unable to decode json request: <decoding error>", and calls
    no service method.  [handleGetUserByID] never reads the body. *)
Theorem decode_failure_500
    (h : HandlerName) (r : http.Request) (s : S) (e : error) :
  decodeError h r = Some e →
  h ≠ GetUserByIDHandler ∧
  (serve (handle SecretKey h r) s).1 = Returned () ∧
  http.status (w (final (handle SecretKey h r) s))
    = http.StatusInternalServerError ∧
  http.body (w (final (handle SecretKey h r) s))
    = errorBody "unable to decode json request" e ∧
  calls (final (handle SecretKey h r) s) = [].
Proof.
  intros He. unfold final.
  rewrite (decode_failure_run h r s e He).
  split; [|repeat split]. intros ->. discriminate He.
Qed.

(** ** The token parser under the handler's key function *)

Lemma keyFunc_HS256 (token : jwt.Token) :
  jwt.Method token = Some jwt.SigningMethodHS256 →
  keyFunc SecretKey token = Ok SecretKey.
Proof.
  intros Hm. unfold keyFunc. rewrite Hm.
  destruct (decide _) as [Hne|_]; [by destruct Hne | reflexivity].
Qed.

Lemma keyFunc_other (token : jwt.Token) :
  jwt.Method token ≠ Some jwt.SigningMethodHS256 →
  ∃ e, keyFunc SecretKey token = Err e.
Proof.
  intros Hm. unfold keyFunc.
  destruct (decide _) as [_|Heq]; [eauto | by destruct Heq].
Qed.

Lemma GetSigningMethod_HS256 (alg : string) :
  jwt.GetSigningMethod alg = Some jwt.SigningMethodHS256 ↔ alg = "HS256".
Proof.
  unfold jwt.GetSigningMethod.
  repeat (destruct (decide _) as [->|?]; [split; done|]). split; done.
Qed.

(** A token whose header does not name HS256 never gets through the parser. *)
Lemma Parse_rejects_other_methods (tokenString : string) :
  tokenMethod tokenString ≠ Some jwt.SigningMethodHS256 →
  ∃ tok e, jwt.Parse tokenString (keyFunc SecretKey) = (tok, Some e).
Proof.
  unfold tokenMethod, jwt.Parse. intros Hm.
  destruct (strings.Split tokenString ".") as [|p0 [|p1 [|p2 [|]]]]; eauto.
  destruct (jwt.DecodeSegment p0) as [header|]; eauto.
  destruct (jwt.DecodeSegment p1) as [claims|]; eauto.
  destruct (header !! "alg") as [[]|]; eauto.
  destruct (jwt.GetSigningMethod s) as [m|]; eauto.
  destruct (keyFunc_other
              {| jwt.Raw := tokenString; jwt.Method := Some m;
                 jwt.Header := header; jwt.Claims := claims;
                 jwt.Signature := ""; jwt.Valid := false |} Hm) as [e ->].
  eauto.
Qed.

(** The parser returns no error only on tokens that verify under the
    secret, and it marks those valid. *)
Lemma Parse_no_error_valid (tokenString : string) (tok : ptr jwt.Token) :
  jwt.Parse tokenString (keyFunc SecretKey) = (tok, None) →
  ∃ t, tok = Some t ∧ jwt.Valid t = true ∧
       verifiedClaims SecretKey tokenString = Some (jwt.Claims t).
Proof.
  unfold verifiedClaims, jwt.Parse.
  destruct (strings.Split tokenString ".") as [|p0 [|p1 [|p2 [|]]]];
    try discriminate.
  destruct (jwt.DecodeSegment p0) as [header|]; try discriminate.
  destruct (jwt.DecodeSegment p1) as [claims|]; try discriminate.
  destruct (header !! "alg") as [[| | |alg| |]|]; try discriminate.
  destruct (jwt.GetSigningMethod alg) as [m|] eqn:Hg; try discriminate.
  cbn zeta. unfold keyFunc at 1. cbn [jwt.Method].
  destruct (decide (Some m ≠ Some jwt.SigningMethodHS256)) as [|Hm];
    try discriminate.
  assert (m = jwt.SigningMethodHS256) as ->.
  { destruct (decide (m = jwt.SigningMethodHS256)) as [|Hne]; [done|].
    destruct Hm. congruence. }
  apply GetSigningMethod_HS256 in Hg as ->.
  destruct (decide _) as [_|]; [|done].
  destruct (jwt.Verify _ _ _ _); try discriminate.
  destruct (jwt.timeError claims); try discriminate.
  intros [= <-]. eexists. repeat split.
Qed.

Lemma Parse_verified (tokenString : string)
    (claims : gmap string json.Value) :
  verifiedClaims SecretKey tokenString = Some claims →
  ∃ t, jwt.Parse tokenString (keyFunc SecretKey) = (Some t, None) ∧
       jwt.Valid t = true ∧ jwt.Claims t = claims.
Proof.
  unfold verifiedClaims, jwt.Parse.
  destruct (strings.Split tokenString ".") as [|p0 [|p1 [|p2 [|]]]];
    try discriminate.
  destruct (jwt.DecodeSegment p0) as [header|]; try discriminate.
  destruct (jwt.DecodeSegment p1) as [claims'|]; try discriminate.
  destruct (header !! "alg") as [[| | |alg| |]|]; try discriminate.
  destruct (decide (alg = "HS256")) as [->|]; try discriminate.
  rewrite (proj2 (GetSigningMethod_HS256 "HS256") eq_refl). cbn zeta.
  rewrite keyFunc_HS256 by reflexivity.
  destruct (jwt.Verify _ _ _ _); try discriminate.
  destruct (jwt.timeError claims'); try discriminate.
  intros [= <-]. eexists. repeat split.
Qed.

(** ** The refresh handler, step by step, over any parser *)

Section Refresh.

Variable Parse : string → jwt.Keyfunc → ptr jwt.Token * option error.

Lemma refresh_parse_error_run (r : http.Request) (s : S)
    (p : reqres.RefreshTokenRequest.t) (tok : ptr jwt.Token) (e : error) :
  json.Decode (http.Body r) = Ok (Some p) →
  validateRefreshToken (Some p) = None →
  Parse (reqres.RefreshTokenRequest.Token p) (keyFunc SecretKey)
    = (tok, Some e) →
  serve (handleRefreshTokenWith SecretKey Parse r) s
  = (Returned (),
     {| svcState := s; calls := [];
        w := errorResponse http.StatusForbidden "Access not allowed" e |}).
Proof.
  intros Hd Hv Hp. unfold serve, handleRefreshTokenWith.
  rewrite Hd, Hv. cbn [bind deref ret]. rewrite Hp.
  apply respondWithError_fresh.
Qed.

Lemma refresh_invalid_run (r : http.Request) (s : S)
    (p : reqres.RefreshTokenRequest.t) (tok : jwt.Token) :
  json.Decode (http.Body r) = Ok (Some p) →
  validateRefreshToken (Some p) = None →
  Parse (reqres.RefreshTokenRequest.Token p) (keyFunc SecretKey)
    = (Some tok, None) →
  jwt.Valid tok = false →
  serve (handleRefreshTokenWith SecretKey Parse r) s
  = (Returned (),
     {| svcState := s; calls := [];
        w := errorResponse http.StatusForbidden "Access not allowed"
               "Invalid jwt token" |}).
Proof.
  intros Hd Hv Hp Hvalid. unfold serve, handleRefreshTokenWith.
  rewrite Hd, Hv. cbn [bind deref ret]. rewrite Hp.
  cbn [bind deref ret]. rewrite Hvalid. cbn [negb].
  apply respondWithError_fresh.
Qed.

Lemma refresh_valid_run (r : http.Request) (s : S)
    (p : reqres.RefreshTokenRequest.t) (tok : jwt.Token)
    (sub username role : string) :
  json.Decode (http.Body r) = Ok (Some p) →
  validateRefreshToken (Some p) = None →
  Parse (reqres.RefreshTokenRequest.Token p) (keyFunc SecretKey)
    = (Some tok, None) →
  jwt.Valid tok = true →
  jwt.Claims tok !! "sub" = Some (json.String sub) →
  jwt.Claims tok !! "username" = Some (json.String username) →
  jwt.Claims tok !! "role" = Some (json.String role) →
  serve (handleRefreshTokenWith SecretKey Parse r) s
  = let call := CallRefreshToken sub username role (http.Referer r) in
    match RefreshToken sub username role (http.Referer r) s with
    | (Ok jwtToken, s') =>
        (Returned (),
         {| svcState := s'; calls := [call];
            w := successResponse http.StatusOK (tokenBody jwtToken) |})
    | (Err e, s') =>
        (Returned (),
         {| svcState := s'; calls := [call];
            w := errorResponse http.StatusInternalServerError
                   "unable to refresh token" e |})
    end.
Proof.
  intros Hd Hv Hp Hvalid Hsub Huser Hrole.
  unfold serve, handleRefreshTokenWith.
  rewrite Hd, Hv. cbn [bind deref ret]. rewrite Hp.
  cbn [bind deref ret]. rewrite Hvalid, Hsub, Huser, Hrole.
  cbn [negb bind assertString ret].
  unfold bind at 1, invoke. cbn [svcState calls w app].
  destruct (RefreshToken sub username role (http.Referer r) s) as [[t|e] s'].
  - reflexivity.
  - apply respondWithError_fresh.
Qed.

Lemma refresh_claims_panic_run (r : http.Request) (s : S)
    (p : reqres.RefreshTokenRequest.t) (tok : jwt.Token) :
  json.Decode (http.Body r) = Ok (Some p) →
  validateRefreshToken (Some p) = None →
  Parse (reqres.RefreshTokenRequest.Token p) (keyFunc SecretKey)
    = (Some tok, None) →
  jwt.Valid tok = true →
  isString (jwt.Claims tok !! "sub")
    && isString (jwt.Claims tok !! "username")
    && isString (jwt.Claims tok !! "role") = false →
  ∃ msg,
    serve (handleRefreshTokenWith SecretKey Parse r) s
    = (Panicked msg,
       {| svcState := s; calls := []; w := http.newResponseWriter |}).
Proof.
  intros Hd Hv Hp Hvalid Hclaims.
  unfold serve, handleRefreshTokenWith.
  rewrite Hd, Hv. cbn [bind deref ret]. rewrite Hp.
  cbn [bind deref ret]. rewrite Hvalid. cbn [negb].
  destruct (jwt.Claims tok !! "sub") as [[]|];
    try (eexists; reflexivity).
  destruct (jwt.Claims tok !! "username") as [[]|];
    try (eexists; reflexivity).
  destruct (jwt.Claims tok !! "role") as [[]|];
    try (eexists; reflexivity).
  discriminate Hclaims.
Qed.

(** C10: whatever the parser returns, the refresh handler reaches the
    UserService only after the parser returned no error and a token marked
    valid; a token returned without error but not marked valid is answered
    403 and no service method is called. *)
Theorem refresh_service_only_for_valid_token (r : http.Request) (s : S) :
  (calls (final (handleRefreshTokenWith SecretKey Parse r) s) ≠ [] →
   ∃ p tok,
     json.Decode (http.Body r) = Ok (Some p) ∧
     Parse (reqres.RefreshTokenRequest.Token p) (keyFunc SecretKey)
       = (Some tok, None) ∧
     jwt.Valid tok = true) ∧
  (∀ p tok,
     json.Decode (http.Body r) = Ok (Some p) →
     validateRefreshToken (Some p) = None →
     Parse (reqres.RefreshTokenRequest.Token p) (keyFunc SecretKey)
       = (Some tok, None) →
     jwt.Valid tok = false →
     (serve (handleRefreshTokenWith SecretKey Parse r) s).1 = Returned () ∧
     http.status (w (final (handleRefreshTokenWith SecretKey Parse r) s))
       = http.StatusForbidden ∧
     calls (final (handleRefreshTokenWith SecretKey Parse r) s) = []).
Proof.
  split.
  - unfold final, serve, handleRefreshTokenWith.
    destruct (json.Decode (http.Body r)) as [[p|]|e] eqn:Hd.
    + destruct (validateRefreshToken (Some p)) eqn:Hv.
      { rewrite respondWithError_fresh. intros []. reflexivity. }
      cbn [bind deref ret].
      destruct (Parse _ _) as [[tok|] [e|]] eqn:Hp.
      * rewrite respondWithError_fresh. intros []. reflexivity.
      * cbn [bind deref ret].
        destruct (jwt.Valid tok) eqn:Hvalid; cbn [negb].
        { intros _. exists p, tok. repeat split; assumption. }
        rewrite respondWithError_fresh. intros []. reflexivity.
      * rewrite respondWithError_fresh. intros []. reflexivity.
      * intros []. reflexivity.
    + destruct (validateRefreshToken None).
      * rewrite respondWithError_fresh. intros []. reflexivity.
      * intros []. reflexivity.
    + rewrite respondWithError_fresh. intros []. reflexivity.
  - intros p tok Hd Hv Hp Hvalid. unfold final.
    rewrite (refresh_invalid_run r s p tok Hd Hv Hp Hvalid). repeat split.
Qed.

End Refresh.

(** C1: when the body decodes and validates and the token names a signing
    method other than HMAC-SHA256 (or none at all), the refresh handler
    answers 403 and never calls the service. *)
Theorem refresh_other_signing_method_403
    (r : http.Request) (s : S) (p : reqres.RefreshTokenRequest.t) :
  json.Decode (http.Body r) = Ok (Some p) →
  validateRefreshToken (Some p) = None →
  tokenMethod (reqres.RefreshTokenRequest.Token p)
    ≠ Some jwt.SigningMethodHS256 →
  (serve (handleRefreshToken SecretKey r) s).1 = Returned () ∧
  http.status (w (final (handleRefreshToken SecretKey r) s))
    = http.StatusForbidden ∧
  calls (final (handleRefreshToken SecretKey r) s) = [] ∧
  svcState (final (handleRefreshToken SecretKey r) s) = s.
Proof.
  intros Hd Hv Hm.
  destruct (Parse_rejects_other_methods _ Hm) as (tok & e & Hp).
  unfold final, handleRefreshToken.
  rewrite (refresh_parse_error_run jwt.Parse r s p tok e Hd Hv Hp).
  repeat split.
Qed.

(** C2: when the token verifies under the process-wide secret and its
    claims [sub], [username] and [role] are strings, the refresh handler
    calls [RefreshToken] exactly once, with those three values and the
    Referer of the request; when the service returns a token, the answer is
    200 with the body [{"token": <that token>}]. *)
Theorem refresh_valid_token_calls_service
    (r : http.Request) (s : S) (p : reqres.RefreshTokenRequest.t)
    (claims : gmap string json.Value) (sub username role : string) :
  json.Decode (http.Body r) = Ok (Some p) →
  validateRefreshToken (Some p) = None →
  verifiedClaims SecretKey (reqres.RefreshTokenRequest.Token p)
    = Some claims →
  claims !! "sub" = Some (json.String sub) →
  claims !! "username" = Some (json.String username) →
  claims !! "role" = Some (json.String role) →
  calls (final (handleRefreshToken SecretKey r) s)
    = [CallRefreshToken sub username role (http.Referer r)] ∧
  ∀ jwtToken s',
    RefreshToken sub username role (http.Referer r) s = (Ok jwtToken, s') →
    (serve (handleRefreshToken SecretKey r) s).1 = Returned () ∧
    http.status (w (final (handleRefreshToken SecretKey r) s))
      = http.StatusOK ∧
    http.body (w (final (handleRefreshToken SecretKey r) s))
      = tokenBody jwtToken.
Proof.
  intros Hd Hv Hc Hsub Huser Hrole.
  destruct (Parse_verified _ _ Hc) as (tok & Hp & Hvalid & <-).
  unfold final, handleRefreshToken.
  rewrite (refresh_valid_run jwt.Parse r s p tok sub username role
             Hd Hv Hp Hvalid Hsub Huser Hrole).
  cbn zeta.
  destruct (RefreshToken sub username role (http.Referer r) s)
    as [[t|e] s1].
  - split; [reflexivity|]. intros jwtToken s' [= <- <-]. repeat split.
  - split; [reflexivity|]. intros jwtToken s' [=].
Qed.

(** C9: a token that verifies under the secret but lacks one of the string
    claims [sub], [username], [role] makes the refresh handler panic on the
    type assertion: nothing is written to the ResponseWriter and the service
    is not called. *)
Theorem refresh_malformed_claims_panic
    (r : http.Request) (s : S) (p : reqres.RefreshTokenRequest.t)
    (claims : gmap string json.Value) :
  json.Decode (http.Body r) = Ok (Some p) →
  validateRefreshToken (Some p) = None →
  verifiedClaims SecretKey (reqres.RefreshTokenRequest.Token p)
    = Some claims →
  isString (claims !! "sub") && isString (claims !! "username")
    && isString (claims !! "role") = false →
  ∃ msg,
    serve (handleRefreshToken SecretKey r) s
    = (Panicked msg,
       {| svcState := s; calls := []; w := http.newResponseWriter |}).
Proof.
  intros Hd Hv Hc Hclaims.
  destruct (Parse_verified _ _ Hc) as (tok & Hp & Hvalid & <-).
  exact (refresh_claims_panic_run jwt.Parse r s p tok Hd Hv Hp Hvalid Hclaims).
Qed.

(** ** Create user *)

Lemma create_run (r : http.Request) (s : S)
    (p : reqres.CreateUserRequest.t) :
  json.Decode (http.Body r) = Ok (Some p) →
  validateCreateUser (Some p) = None →
  serve (handleCreateUser r) s
  = let newUser :=
      {| model.Email := reqres.CreateUserRequest.Email p;
         model.FirstName := reqres.CreateUserRequest.FirstName p;
         model.LastName := reqres.CreateUserRequest.LastName p;
         model.Password := reqres.CreateUserRequest.Password p;
         model.Role := reqres.CreateUserRequest.Role p;
         model.Username := reqres.CreateUserRequest.Username p |} in
    match Create newUser s with
    | (Ok user, s') =>
        match json.Marshal (json.toJSON user) with
        | Ok userJSON =>
            (Returned (),
             {| svcState := s'; calls := [CallCreate newUser];
                w := successResponse http.StatusCreated
                       (userBody userJSON) |})
        | Err e =>
            (Returned (),
             {| svcState := s'; calls := [CallCreate newUser];
                w := errorResponse http.StatusInternalServerError
                       "unable to marshal json response" e |})
        end
    | (Err e, s') =>
        (Returned (),
         {| svcState := s'; calls := [CallCreate newUser];
            w := errorResponse http.StatusInternalServerError
                   "unable to add user" e |})
    end.
Proof.
  intros Hd Hv. unfold serve, handleCreateUser.
  rewrite Hd, Hv. cbn [bind deref ret]. cbn zeta.
  unfold bind at 1, invoke. cbn [svcState calls w app].
  destruct (Create _ s) as [[user|e] s'].
  - unfold json.toJSON at 1, reqres.CreateUserResponse_toJSON.
    rewrite Marshal_singleton_object. cbn [reqres.CreateUserResponse.User].
    destruct (json.Marshal (json.toJSON user)) as [userJSON|e].
    + reflexivity.
    + apply respondWithError_fresh.
  - apply respondWithError_fresh.
Qed.

(** C6: a create-user request whose body decodes and validates makes
    exactly one service call, [Create], with a [CreateUser] whose six fields
    are the decoded ones; when the service returns a user, the answer is 201
    with the body [{"user": <the JSON of that user>}]. *)
Theorem create_calls_service_once
    (r : http.Request) (s : S) (p : reqres.CreateUserRequest.t) :
  json.Decode (http.Body r) = Ok (Some p) →
  validateCreateUser (Some p) = None →
  ∃ newUser,
    calls (final (handleCreateUser r) s) = [CallCreate newUser] ∧
    model.Email newUser = reqres.CreateUserRequest.Email p ∧
    model.FirstName newUser = reqres.CreateUserRequest.FirstName p ∧
    model.LastName newUser = reqres.CreateUserRequest.LastName p ∧
    model.Password newUser = reqres.CreateUserRequest.Password p ∧
    model.Role newUser = reqres.CreateUserRequest.Role p ∧
    model.Username newUser = reqres.CreateUserRequest.Username p ∧
    ∀ user s' userJSON,
      Create newUser s = (Ok user, s') →
      json.Marshal (json.toJSON user) = Ok userJSON →
      (serve (handleCreateUser r) s).1 = Returned () ∧
      http.status (w (final (handleCreateUser r) s)) = http.StatusCreated ∧
      http.body (w (final (handleCreateUser r) s)) = userBody userJSON.
Proof.
  intros Hd Hv. unfold final. rewrite (create_run r s p Hd Hv). cbn zeta.
  match goal with |- context [Create ?u s] => exists u end.
  split; [|repeat (split; [reflexivity|])].
  - destruct (Create _ s) as [[user|e] s1];
      [destruct (json.Marshal (json.toJSON user))|]; reflexivity.
  - intros user s' userJSON -> ->. repeat split.
Qed.

(** ** Login *)

Lemma login_run (r : http.Request) (s : S) (p : reqres.LoginRequest.t) :
  json.Decode (http.Body r) = Ok (Some p) →
  validateLoginUser (Some p) = None →
  serve (handleLoginUser r) s
  = let username := reqres.LoginRequest.Username p in
    let password := reqres.LoginRequest.Password p in
    let call := CallLogin username password (http.Referer r) in
    match Login username password (http.Referer r) s with
    | (Ok token, s') =>
        (Returned (),
         {| svcState := s'; calls := [call];
            w := successResponse http.StatusOK (tokenBody token) |})
    | (Err e, s') =>
        (Returned (),
         {| svcState := s'; calls := [call];
            w := errorResponse http.StatusBadRequest
                   "unable to log in user" e |})
    end.
Proof.
  intros Hd Hv. unfold serve, handleLoginUser.
  rewrite Hd, Hv. cbn [bind deref ret]. cbn zeta.
  unfold bind at 1, invoke. cbn [svcState calls w app].
  destruct (Login _ _ _ s) as [[token|e] s'].
  - reflexivity.
  - apply respondWithError_fresh.
Qed.

(** C7, amended: a response of the login handler other than the 200 of a
    successful login is a 400 when the body decoded (a validation or a
    service failure) and a 500 when the body could not be decoded. *)
Theorem login_failure_codes (r : http.Request) (s : S) :
  http.wroteHeader (w (final (handleLoginUser r) s)) = true →
  http.status (w (final (handleLoginUser r) s)) ≠ http.StatusOK →
  (http.status (w (final (handleLoginUser r) s)) = http.StatusBadRequest ∧
   ∃ payload,
     json.Decode (A := reqres.LoginRequest.t) (http.Body r) = Ok payload) ∨
  (http.status (w (final (handleLoginUser r) s))
     = http.StatusInternalServerError ∧
   ∃ e, json.Decode (A := reqres.LoginRequest.t) (http.Body r) = Err e).
Proof.
  unfold final.
  destruct (json.Decode (A := reqres.LoginRequest.t) (http.Body r))
    as [[p|]|e] eqn:Hd.
  - destruct (validateLoginUser (Some p)) as [e|] eqn:Hv.
    + unfold serve, handleLoginUser.
      rewrite Hd, Hv, respondWithError_fresh.
      intros _ _. left. split; [reflexivity | eauto].
    + rewrite (login_run r s p Hd Hv). cbn zeta.
      destruct (Login _ _ _ s) as [[token|e] s']; intros _ Hst.
      * by destruct Hst.
      * left. split; [reflexivity | eauto].
  - destruct (validateLoginUser None) as [e|] eqn:Hv.
    + unfold serve, handleLoginUser.
      rewrite Hd, Hv, respondWithError_fresh.
      intros _ _. left. split; [reflexivity | eauto].
    + unfold serve, handleLoginUser. rewrite Hd, Hv. discriminate.
  - unfold serve, handleLoginUser.
    rewrite Hd, respondWithError_fresh.
    intros _ _. right. split; [reflexivity | eauto].
Qed.

(** ** Get user by id *)

Lemma get_run (r : http.Request) (s : S) :
  validateGetUserByID (default "" (http.Vars r !! "id")) = None →
  serve (handleGetUserByID r) s
  = let id := default "" (http.Vars r !! "id") in
    match GetByID id s with
    | (Ok user, s') =>
        match json.Marshal (json.toJSON user) with
        | Ok userJSON =>
            (Returned (),
             {| svcState := s'; calls := [CallGetByID id];
                w := successResponse http.StatusOK (userBody userJSON) |})
        | Err e =>
            (Returned (),
             {| svcState := s'; calls := [CallGetByID id];
                w := errorResponse http.StatusInternalServerError
                       "unable to marshal json response" e |})
        end
    | (Err e, s') =>
        (Returned (),
         {| svcState := s'; calls := [CallGetByID id];
            w := errorResponse http.StatusInternalServerError
                   "unable to get user" e |})
    end.
Proof.
  intros Hv. unfold serve, handleGetUserByID. cbn zeta.
  rewrite Hv. unfold bind at 1, invoke. cbn [svcState calls w app].
  destruct (GetByID _ s) as [[user|e] s'].
  - unfold json.toJSON at 1, reqres.GetUserResponse_toJSON.
    rewrite Marshal_singleton_object. cbn [reqres.GetUserResponse.User].
    destruct (json.Marshal (json.toJSON user)) as [userJSON|e].
    + reflexivity.
    + apply respondWithError_fresh.
  - apply respondWithError_fresh.
Qed.

(** ** Every run of every handler *)

Ltac answer_error :=
  apply AnswerError; cbn [In errorContexts]; tauto.
Ltac answer_success :=
  apply AnswerSuccess; cbn [In]; tauto.

Lemma handle_answer (h : HandlerName) (r : http.Request) (s : S) :
  Answer (serve (handle SecretKey h r) s).1
         (w (final (handle SecretKey h r) s)).
Proof.
  unfold final.
  destruct (decodeError h r) as [e|] eqn:Hde.
  { rewrite (decode_failure_run h r s e Hde). answer_error. }
  destruct (validationError h r) as [e|] eqn:Hve.
  { rewrite (validation_failure_run h r s e Hve). answer_error. }
  destruct h; cbn [handle decodeError validationError] in *.
  - destruct (json.Decode (http.Body r)) as [[p|]|e] eqn:Hd;
      try discriminate.
    + rewrite (create_run r s p Hd Hve). cbn zeta.
      destruct (Create _ s) as [[user|e] s'];
        [destruct (json.Marshal (json.toJSON user))|];
        first [answer_success | answer_error].
    + unfold serve, handleCreateUser. rewrite Hd, Hve. apply AnswerPanic.
  - rewrite (get_run r s Hve). cbn zeta.
    destruct (GetByID _ s) as [[user|e] s'];
      [destruct (json.Marshal (json.toJSON user))|];
      first [answer_success | answer_error].
  - destruct (json.Decode (http.Body r)) as [[p|]|e] eqn:Hd;
      try discriminate.
    + rewrite (login_run r s p Hd Hve). cbn zeta.
      destruct (Login _ _ _ s) as [[token|e] s'];
        first [answer_success | answer_error].
    + unfold serve, handleLoginUser. rewrite Hd, Hve. apply AnswerPanic.
  - destruct (json.Decode (http.Body r)) as [[p|]|e] eqn:Hd;
      try discriminate.
    + unfold handleRefreshToken.
      destruct (jwt.Parse (reqres.RefreshTokenRequest.Token p)
                  (keyFunc SecretKey)) as [tok [e|]] eqn:Hp.
      { rewrite (refresh_parse_error_run jwt.Parse r s p tok e Hd Hve Hp).
        answer_error. }
      destruct (Parse_no_error_valid _ _ Hp) as (t & -> & Hvalid & _).
      destruct (isString (jwt.Claims t !! "sub")
                && isString (jwt.Claims t !! "username")
                && isString (jwt.Claims t !! "role")) eqn:Hclaims.
      * destruct (jwt.Claims t !! "sub") as [[| | |sub| |]|] eqn:Hsub;
          try discriminate.
        destruct (jwt.Claims t !! "username") as [[| | |username| |]|]
          eqn:Huser; try discriminate.
        destruct (jwt.Claims t !! "role") as [[| | |role| |]|] eqn:Hrole;
          try discriminate.
        rewrite (refresh_valid_run jwt.Parse r s p t sub username role
                   Hd Hve Hp Hvalid Hsub Huser Hrole).
        cbn zeta.
        destruct (RefreshToken _ _ _ _ s) as [[token|e] s'];
          first [answer_success | answer_error].
      * destruct (refresh_claims_panic_run jwt.Parse r s p t
                    Hd Hve Hp Hvalid Hclaims) as [msg ->].
        apply AnswerPanic.
    + unfold serve, handleRefreshToken, handleRefreshTokenWith.
      rewrite Hd, Hve. apply AnswerPanic.
Qed.

(** The failure a request meets is the one the handler answers: it returns,
    and the writer is the one [respondWithError] leaves for that status,
    context and error.  A request that meets none is not answered with an
    error status. *)
Lemma failureOf_run (h : HandlerName) (r : http.Request) (s : S) :
  match failureOf SecretKey h r s with
  | Some (st, context, err) =>
      (serve (handle SecretKey h r) s).1 = Returned () ∧
      w (final (handle SecretKey h r) s) = errorResponse st context err
  | None => http.status (w (final (handle SecretKey h r) s)) < 400
  end.
Proof.
  unfold failureOf, final.
  destruct (decodeError h r) as [e|] eqn:Hde.
  { rewrite (decode_failure_run h r s e Hde). split; reflexivity. }
  destruct (validationError h r) as [e|] eqn:Hve.
  { rewrite (validation_failure_run h r s e Hve). split; reflexivity. }
  destruct h; cbn [handle decodeError validationError] in *.
  - destruct (json.Decode (http.Body r)) as [[p|]|e] eqn:Hd;
      try discriminate.
    + rewrite (create_run r s p Hd Hve). cbn zeta. fold (newUserOf p).
      destruct (Create (newUserOf p) s) as [[user|e] s']; cbn [fst].
      * unfold marshalFailure, json.toJSON at 1,
          reqres.CreateUserResponse_toJSON.
        rewrite Marshal_singleton_object.
        cbn [reqres.CreateUserResponse.User].
        destruct (json.Marshal (json.toJSON user));
          [cbn; unfold http.StatusCreated; lia | split; reflexivity].
      * split; reflexivity.
    + unfold serve, handleCreateUser. rewrite Hd, Hve. cbn. lia.
  - rewrite (get_run r s Hve). cbn zeta.
    destruct (GetByID _ s) as [[user|e] s']; cbn [fst].
    + unfold marshalFailure, json.toJSON at 1, reqres.GetUserResponse_toJSON.
      rewrite Marshal_singleton_object. cbn [reqres.GetUserResponse.User].
      destruct (json.Marshal (json.toJSON user));
        [cbn; unfold http.StatusOK; lia | split; reflexivity].
    + split; reflexivity.
  - destruct (json.Decode (http.Body r)) as [[p|]|e] eqn:Hd;
      try discriminate.
    + rewrite (login_run r s p Hd Hve). cbn zeta.
      destruct (Login _ _ _ s) as [[token|e] s']; cbn [fst].
      * unfold marshalFailure. rewrite Marshal_LoginResponse.
        cbn. unfold http.StatusOK. lia.
      * split; reflexivity.
    + unfold serve, handleLoginUser. rewrite Hd, Hve. cbn. lia.
  - destruct (json.Decode (http.Body r)) as [[p|]|e] eqn:Hd;
      try discriminate.
    + unfold handleRefreshToken.
      destruct (jwt.Parse (reqres.RefreshTokenRequest.Token p)
                  (keyFunc SecretKey)) as [tok [e|]] eqn:Hp.
      { rewrite (refresh_parse_error_run jwt.Parse r s p tok e Hd Hve Hp).
        destruct tok; split; reflexivity. }
      destruct (Parse_no_error_valid _ _ Hp) as (t & -> & Hvalid & _).
      rewrite Hvalid. cbn [negb].
      destruct (isString (jwt.Claims t !! "sub")
                && isString (jwt.Claims t !! "username")
                && isString (jwt.Claims t !! "role")) eqn:Hclaims.
      * destruct (jwt.Claims t !! "sub") as [[| | |sub| |]|] eqn:Hsub;
          try discriminate.
        destruct (jwt.Claims t !! "username") as [[| | |username| |]|]
          eqn:Huser; try discriminate.
        destruct (jwt.Claims t !! "role") as [[| | |role| |]|] eqn:Hrole;
          try discriminate.
        rewrite (refresh_valid_run jwt.Parse r s p t sub username role
                   Hd Hve Hp Hvalid Hsub Huser Hrole).
        cbn zeta.
        destruct (RefreshToken _ _ _ _ s) as [[token|e] s']; cbn [fst].
        -- unfold marshalFailure. rewrite Marshal_LoginResponse.
           cbn. unfold http.StatusOK. lia.
        -- split; reflexivity.
      * destruct (refresh_claims_panic_run jwt.Parse r s p t
                    Hd Hve Hp Hvalid Hclaims) as [msg ->].
        destruct (jwt.Claims t !! "sub") as [[]|];
          destruct (jwt.Claims t !! "username") as [[]|];
          destruct (jwt.Claims t !! "role") as [[]|];
          first [discriminate Hclaims | cbn; lia].
    + unfold serve, handleRefreshToken, handleRefreshTokenWith.
      rewrite Hd, Hve. cbn. lia.
Qed.

(** C8: every error response of every handler has as its body the JSON
    object with the single field [message], holding the context string the
    handler gives the failure, a colon and a space, and the text of the
    error underneath.  Whenever the request meets a failure the handler
    answers with its status and that body; and a response with status 400 or
    more always comes from the failure the request met. *)
Theorem error_response_body (h : HandlerName) (r : http.Request) (s : S) :
  (∀ st context err,
     failureOf SecretKey h r s = Some (st, context, err) →
     (serve (handle SecretKey h r) s).1 = Returned () ∧
     http.status (w (final (handle SecretKey h r) s)) = st ∧
     http.body (w (final (handle SecretKey h r) s))
       = errorBody context err) ∧
  (400 ≤ http.status (w (final (handle SecretKey h r) s)) →
   ∃ context err,
     failureOf SecretKey h r s
       = Some (http.status (w (final (handle SecretKey h r) s)),
               context, err) ∧
     http.body (w (final (handle SecretKey h r) s)) = errorBody context err).
Proof.
  pose proof (failureOf_run h r s) as Hrun.
  destruct (failureOf SecretKey h r s) as [[[st context] err]|].
  - destruct Hrun as [Hret Hw]. split.
    + intros st' context' err' [= <- <- <-]. rewrite Hw.
      split_and!; [exact Hret | reflexivity | reflexivity].
    + intros _. exists context, err. rewrite Hw. split; reflexivity.
  - split; [discriminate | lia].
Qed.

(** The JSON document [null] decodes without error into a nil pointer.  If
    the validation function lets the nil pointer through, the first field
    access panics: nothing is written and the service is not called. *)
Lemma nil_payload_panics (h : HandlerName) (r : http.Request) (s : S) :
  h ≠ GetUserByIDHandler →
  match h with
  | CreateUserHandler =>
      json.Decode (A := reqres.CreateUserRequest.t) (http.Body r) = Ok None
  | LoginHandler =>
      json.Decode (A := reqres.LoginRequest.t) (http.Body r) = Ok None
  | _ =>
      json.Decode (A := reqres.RefreshTokenRequest.t) (http.Body r) = Ok None
  end →
  validationError h r = None →
  ∃ msg,
    serve (handle SecretKey h r) s
    = (Panicked msg,
       {| svcState := s; calls := []; w := http.newResponseWriter |}).
Proof.
  intros Hh Hd Hv. unfold serve.
  destruct h; try (by destruct Hh); cbn [handle validationError] in *;
    unfold handleCreateUser, handleLoginUser, handleRefreshToken,
      handleRefreshTokenWith;
    rewrite Hd in Hv |- *; rewrite Hv; eexists; reflexivity.
Qed.

(** The Content-Type of the two kinds of response: [respondWithError] sets
    the header and then sends it; the success paths send the headers first
    and set theirs afterwards. *)
Lemma content_type_sent (h : HandlerName) (r : http.Request) (s : S) :
  (400 ≤ http.status (w (final (handle SecretKey h r) s)) →
   http.ContentType (w (final (handle SecretKey h r) s))
     = Some ["application/json"]) ∧
  (In (http.status (w (final (handle SecretKey h r) s)))
      [http.StatusOK; http.StatusCreated] →
   http.ContentType (w (final (handle SecretKey h r) s)) = None ∧
   http.handlerHeader (w (final (handle SecretKey h r) s)) !! "Content-Type"
     = Some ["application/json"]).
Proof.
  destruct (handle_answer h r s) as [st context err _ Hst|st js Hst|msg].
  - split; [reflexivity|].
    cbn [http.status errorResponse].
    cbn in Hst |- *. unfold http.StatusBadRequest, http.StatusForbidden,
      http.StatusInternalServerError, http.StatusOK, http.StatusCreated in *.
    lia.
  - split; [|intros _; split; reflexivity].
    cbn [http.status successResponse]. cbn in Hst.
    unfold http.StatusOK, http.StatusCreated in Hst. lia.
  - split; cbn; unfold http.StatusOK, http.StatusCreated; lia.
Qed.

End Properties.

(** * The properties on the concrete deployment *)

Section Deployment.

#[local] Existing Instance Demo.encoding.
#[local] Existing Instance Demo.formatter.
#[local] Existing Instance Demo.User_toJSON.
#[local] Existing Instance Demo.jwtLibrary.
#[local] Existing Instance Demo.validators.
#[local] Existing Instance Demo.service.
#[local] Existing Instance Demo.createDecoder.
#[local] Existing Instance Demo.loginDecoder.
#[local] Existing Instance Demo.refreshDecoder.

(** C3: a create-user request that succeeds is answered 201, and the
    response goes out without the Content-Type header: the handler sets
    [application/json] in its header map only after [WriteHeader]. *)
Theorem create_success_sent_without_content_type :
  (serve (handleCreateUser (Demo.request Demo.createBody)) Demo.emptyStore).1
    = Returned () ∧
  http.status (w (final (handleCreateUser (Demo.request Demo.createBody))
                    Demo.emptyStore)) = http.StatusCreated ∧
  http.ContentType (w (final (handleCreateUser (Demo.request Demo.createBody))
                         Demo.emptyStore)) = None ∧
  http.handlerHeader
    (w (final (handleCreateUser (Demo.request Demo.createBody)) Demo.emptyStore))
    !! "Content-Type" = Some ["application/json"].
Proof. split_and!; vm_compute; reflexivity. Qed.

(** C5, as stated, fails on [handleGetUserByID]: a body that no request type
    decodes from comes with a valid id, and the answer is 200. *)
Lemma get_user_ignores_malformed_body :
  malformedBody "{" = true ∧
  http.status
    (w (final (handle Demo.secret GetUserByIDHandler
                 (Demo.getRequest "u1" "{")) [Demo.alice]))
    = http.StatusOK ∧
  http.status
    (w (final (handle Demo.secret GetUserByIDHandler
                 (Demo.getRequest "u1" "{")) [Demo.alice]))
    ≠ http.StatusInternalServerError.
Proof. split_and!; vm_compute; [reflexivity | reflexivity | discriminate]. Qed.

(** C7, as stated, fails on a login body that does not decode: the request
    does not succeed and the answer is 500, not 400. *)
Lemma login_malformed_body_is_500 :
  http.status (w (final (handleLoginUser (Demo.request "{")) Demo.emptyStore))
    = http.StatusInternalServerError ∧
  http.status (w (final (handleLoginUser (Demo.request "{")) Demo.emptyStore))
    ≠ http.StatusOK ∧
  http.status (w (final (handleLoginUser (Demo.request "{")) Demo.emptyStore))
    ≠ http.StatusBadRequest.
Proof. split_and!; vm_compute; [reflexivity | discriminate | discriminate]. Qed.

(** ** The theorems at concrete requests *)

Lemma refresh_other_signing_method_403_witness :
  (json.Decode (http.Body (Demo.request (Demo.refreshBody Demo.hs384Token)))
     = Ok (Some {| reqres.RefreshTokenRequest.Token := Demo.hs384Token |}) ∧
   validateRefreshToken
     (Some {| reqres.RefreshTokenRequest.Token := Demo.hs384Token |}) = None ∧
   tokenMethod Demo.hs384Token ≠ Some jwt.SigningMethodHS256) ∧
  ((serve (handleRefreshToken Demo.secret
             (Demo.request (Demo.refreshBody Demo.hs384Token)))
      Demo.emptyStore).1 = Returned () ∧
   http.status
     (w (final (handleRefreshToken Demo.secret
                  (Demo.request (Demo.refreshBody Demo.hs384Token)))
           Demo.emptyStore)) = http.StatusForbidden ∧
   calls (final (handleRefreshToken Demo.secret
                   (Demo.request (Demo.refreshBody Demo.hs384Token)))
            Demo.emptyStore) = [] ∧
   svcState (final (handleRefreshToken Demo.secret
                      (Demo.request (Demo.refreshBody Demo.hs384Token)))
               Demo.emptyStore) = Demo.emptyStore).
Proof.
  split.
  - split_and!; vm_compute; [reflexivity | reflexivity | discriminate].
  - apply (refresh_other_signing_method_403 Demo.secret
             (Demo.request (Demo.refreshBody Demo.hs384Token))
             Demo.emptyStore
             {| reqres.RefreshTokenRequest.Token := Demo.hs384Token |});
      vm_compute; [reflexivity | reflexivity | discriminate].
Defined.

Lemma refresh_valid_token_calls_service_witness :
  calls (final (handleRefreshToken Demo.secret
                  (Demo.request (Demo.refreshBody Demo.aliceToken)))
           Demo.emptyStore)
    = [CallRefreshToken "u1" "alice" "admin" "https://buzz.example/app"] ∧
  http.status
    (w (final (handleRefreshToken Demo.secret
                 (Demo.request (Demo.refreshBody Demo.aliceToken)))
          Demo.emptyStore)) = http.StatusOK ∧
  http.body
    (w (final (handleRefreshToken Demo.secret
                 (Demo.request (Demo.refreshBody Demo.aliceToken)))
          Demo.emptyStore)) = tokenBody "fresh-token-of-alice".
Proof.
  destruct (refresh_valid_token_calls_service Demo.secret
              (Demo.request (Demo.refreshBody Demo.aliceToken))
              Demo.emptyStore
              {| reqres.RefreshTokenRequest.Token := Demo.aliceToken |}
              {[ "sub" := json.String "u1";
                 "username" := json.String "alice";
                 "role" := json.String "admin" ]}
              "u1" "alice" "admin") as [Hcalls Hanswer];
    [vm_compute; reflexivity ..|].
  split; [exact Hcalls|].
  exact (proj2 (Hanswer "fresh-token-of-alice" Demo.emptyStore eq_refl)).
Defined.

Lemma refresh_malformed_claims_panic_witness :
  (verifiedClaims Demo.secret Demo.noRoleToken
     = Some {[ "sub" := json.String "u1";
               "username" := json.String "alice" ]} ∧
   isString (({[ "sub" := json.String "u1";
                 "username" := json.String "alice" ]}
               : gmap string json.Value) !! "role") = false) ∧
  ∃ msg,
    serve (handleRefreshToken Demo.secret
             (Demo.request (Demo.refreshBody Demo.noRoleToken)))
      Demo.emptyStore
    = (Panicked msg,
       {| svcState := Demo.emptyStore; calls := [];
          w := http.newResponseWriter |}).
Proof.
  split.
  - split_and!; vm_compute; reflexivity.
  - apply (refresh_malformed_claims_panic Demo.secret
             (Demo.request (Demo.refreshBody Demo.noRoleToken))
             Demo.emptyStore
             {| reqres.RefreshTokenRequest.Token := Demo.noRoleToken |}
             {[ "sub" := json.String "u1";
                "username" := json.String "alice" ]});
      vm_compute; reflexivity.
Defined.

Lemma validation_failure_400_no_service_call_witness :
  validationError LoginHandler (Demo.request Demo.loginNoPasswordBody)
    = Some "password is required" ∧
  (serve (handle Demo.secret LoginHandler
            (Demo.request Demo.loginNoPasswordBody)) Demo.emptyStore).1
    = Returned () ∧
  http.status
    (w (final (handle Demo.secret LoginHandler
                 (Demo.request Demo.loginNoPasswordBody)) Demo.emptyStore))
    = http.StatusBadRequest ∧
  calls (final (handle Demo.secret LoginHandler
                  (Demo.request Demo.loginNoPasswordBody)) Demo.emptyStore)
    = [] ∧
  svcState (final (handle Demo.secret LoginHandler
                     (Demo.request Demo.loginNoPasswordBody)) Demo.emptyStore)
    = Demo.emptyStore.
Proof.
  split; [vm_compute; reflexivity|].
  apply (validation_failure_400_no_service_call Demo.secret LoginHandler
           (Demo.request Demo.loginNoPasswordBody) Demo.emptyStore
           "password is required").
  vm_compute; reflexivity.
Defined.

Lemma decode_failure_500_witness :
  decodeError CreateUserHandler (Demo.request "{")
    = Some "unexpected end of JSON input" ∧
  CreateUserHandler ≠ GetUserByIDHandler ∧
  (serve (handle Demo.secret CreateUserHandler (Demo.request "{"))
     Demo.emptyStore).1 = Returned () ∧
  http.status
    (w (final (handle Demo.secret CreateUserHandler (Demo.request "{"))
          Demo.emptyStore)) = http.StatusInternalServerError ∧
  http.body
    (w (final (handle Demo.secret CreateUserHandler (Demo.request "{"))
          Demo.emptyStore))
    = errorBody "unable to decode json request"
        "unexpected end of JSON input" ∧
  calls (final (handle Demo.secret CreateUserHandler (Demo.request "{"))
           Demo.emptyStore) = [].
Proof.
  split; [vm_compute; reflexivity|].
  apply (decode_failure_500 Demo.secret CreateUserHandler
           (Demo.request "{") Demo.emptyStore
           "unexpected end of JSON input").
  vm_compute; reflexivity.
Defined.

Lemma create_calls_service_once_witness :
  ∃ newUser,
    calls (final (handleCreateUser (Demo.request Demo.createBody))
             Demo.emptyStore) = [CallCreate newUser] ∧
    model.Email newUser = "alice@example.com" ∧
    model.Username newUser = "alice" ∧
    http.status
      (w (final (handleCreateUser (Demo.request Demo.createBody))
            Demo.emptyStore)) = http.StatusCreated ∧
    http.body
      (w (final (handleCreateUser (Demo.request Demo.createBody))
            Demo.emptyStore))
      = userBody
          ("{" +:+ Demo.field "id" "u1" +:+ ","
               +:+ Demo.field "username" "alice" +:+ ","
               +:+ Demo.field "role" "admin" +:+ "}").
Proof.
  destruct (create_calls_service_once
              (Demo.request Demo.createBody) Demo.emptyStore
              Demo.createPayload)
    as (newUser & Hcalls & Hemail & _ & _ & _ & _ & Huser & Hanswer);
    [vm_compute; reflexivity ..|].
  exists newUser. split_and!; [exact Hcalls | exact Hemail | exact Huser | |].
  - refine (proj1 (proj2 (Hanswer Demo.alice [Demo.alice] _ _ _))).
    + injection Hcalls as <-. vm_compute. reflexivity.
    + vm_compute. reflexivity.
  - refine (proj2 (proj2 (Hanswer Demo.alice [Demo.alice] _ _ _))).
    + injection Hcalls as <-. vm_compute. reflexivity.
    + vm_compute. reflexivity.
Defined.

Lemma login_failure_codes_witness :
  (http.status
     (w (final (handleLoginUser (Demo.request "{")) Demo.emptyStore))
     = http.StatusBadRequest ∧
   ∃ payload,
     json.Decode (A := reqres.LoginRequest.t) (http.Body (Demo.request "{"))
       = Ok payload) ∨
  (http.status
     (w (final (handleLoginUser (Demo.request "{")) Demo.emptyStore))
     = http.StatusInternalServerError ∧
   ∃ e,
     json.Decode (A := reqres.LoginRequest.t) (http.Body (Demo.request "{"))
       = Err e).
Proof.
  apply (login_failure_codes (Demo.request "{") Demo.emptyStore);
    vm_compute; [reflexivity | discriminate].
Defined.

Lemma error_response_body_witness :
  failureOf Demo.secret RefreshTokenHandler
    (Demo.request (Demo.refreshBody Demo.hs384Token)) Demo.emptyStore
    = Some (http.StatusForbidden, "Access not allowed",
            "Unexpected signing method: HS384") ∧
  ((serve (handle Demo.secret RefreshTokenHandler
             (Demo.request (Demo.refreshBody Demo.hs384Token)))
      Demo.emptyStore).1 = Returned () ∧
   http.status
     (w (final (handle Demo.secret RefreshTokenHandler
                  (Demo.request (Demo.refreshBody Demo.hs384Token)))
           Demo.emptyStore)) = http.StatusForbidden ∧
   http.body
     (w (final (handle Demo.secret RefreshTokenHandler
                  (Demo.request (Demo.refreshBody Demo.hs384Token)))
           Demo.emptyStore))
     = errorBody "Access not allowed" "Unexpected signing method: HS384") ∧
  400 ≤ http.status
          (w (final (handle Demo.secret LoginHandler (Demo.request "{"))
                Demo.emptyStore)) ∧
  ∃ context err,
    failureOf Demo.secret LoginHandler (Demo.request "{") Demo.emptyStore
      = Some (http.status
                (w (final (handle Demo.secret LoginHandler
                             (Demo.request "{")) Demo.emptyStore)),
              context, err) ∧
    http.body
      (w (final (handle Demo.secret LoginHandler (Demo.request "{"))
            Demo.emptyStore)) = errorBody context err.
Proof.
  split; [vm_compute; reflexivity|]. split.
  - apply (proj1 (error_response_body Demo.secret RefreshTokenHandler
                    (Demo.request (Demo.refreshBody Demo.hs384Token))
                    Demo.emptyStore)).
    vm_compute. reflexivity.
  - split; [vm_compute; discriminate|].
    apply (proj2 (error_response_body Demo.secret LoginHandler
                    (Demo.request "{") Demo.emptyStore)).
    vm_compute. discriminate.
Defined.

Lemma refresh_service_only_for_valid_token_witness :
  (∃ p tok,
     json.Decode (http.Body (Demo.request (Demo.refreshBody Demo.aliceToken)))
       = Ok (Some p) ∧
     jwt.Parse (reqres.RefreshTokenRequest.Token p) (keyFunc Demo.secret)
       = (Some tok, None) ∧
     jwt.Valid tok = true) ∧
  ((serve (handleRefreshTokenWith Demo.secret Demo.laxParse
             (Demo.request (Demo.refreshBody Demo.aliceToken)))
      Demo.emptyStore).1 = Returned () ∧
   http.status
     (w (final (handleRefreshTokenWith Demo.secret Demo.laxParse
                  (Demo.request (Demo.refreshBody Demo.aliceToken)))
           Demo.emptyStore)) = http.StatusForbidden ∧
   calls (final (handleRefreshTokenWith Demo.secret Demo.laxParse
                   (Demo.request (Demo.refreshBody Demo.aliceToken)))
            Demo.emptyStore) = []).
Proof.
  split.
  - apply (proj1 (refresh_service_only_for_valid_token Demo.secret jwt.Parse
                    (Demo.request (Demo.refreshBody Demo.aliceToken))
                    Demo.emptyStore)).
    vm_compute. discriminate.
  - refine (proj2 (refresh_service_only_for_valid_token Demo.secret
                     Demo.laxParse
                     (Demo.request (Demo.refreshBody Demo.aliceToken))
                     Demo.emptyStore)
              {| reqres.RefreshTokenRequest.Token := Demo.aliceToken |}
              _ _ _ eq_refl _);
      vm_compute; reflexivity.
Defined.

End Deployment.

(** * Further properties: every run, handler by handler *)

Section Coverage.

Context {S U : Type}.
Context `{!UserService S U, !json.ToJSON U}.
Context `{!json.Encoding, !fmt.Formatter, !jwt.Library, !Validators}.
Context `{!json.Decoder reqres.CreateUserRequest.t}.
Context `{!json.Decoder reqres.LoginRequest.t}.
Context `{!json.Decoder reqres.RefreshTokenRequest.t}.
Variable SecretKey : string.

Ltac run_rejected := apply RunRejected; cbn [In rejections]; tauto.
Ltac run_delegated :=
  apply RunDelegated;
  [reflexivity
  |first [apply DelegatedSuccess
         |apply (DelegatedFailure CreateUserHandler)
         |apply (DelegatedFailure GetUserByIDHandler)
         |apply (DelegatedFailure LoginHandler)
         |apply (DelegatedFailure RefreshTokenHandler)
         |apply DelegatedUnmarshalled]].

(** Every run of every handler has one of the three shapes. *)
Lemma handle_Run (h : HandlerName) (r : http.Request) (s : S) :
  Run h s (serve (handle SecretKey h r) s).
Proof.
  destruct (decodeError h r) as [e|] eqn:Hde.
  { rewrite (decode_failure_run SecretKey h r s e Hde).
    destruct h; try discriminate; run_rejected. }
  destruct (validationError h r) as [e|] eqn:Hve.
  { rewrite (validation_failure_run SecretKey h r s e Hve).
    destruct h; run_rejected. }
  destruct h; cbn [handle decodeError validationError] in *.
  - destruct (json.Decode (http.Body r)) as [[p|]|e] eqn:Hd;
      try discriminate.
    + rewrite (create_run r s p Hd Hve). cbn zeta.
      destruct (Create _ s) as [[user|e] s'];
        [destruct (json.Marshal (json.toJSON user))|]; run_delegated.
    + unfold serve, handleCreateUser. rewrite Hd, Hve. apply RunPanicked.
  - rewrite (get_run r s Hve). cbn zeta.
    destruct (GetByID _ s) as [[user|e] s'];
      [destruct (json.Marshal (json.toJSON user))|]; run_delegated.
  - destruct (json.Decode (http.Body r)) as [[p|]|e] eqn:Hd;
      try discriminate.
    + rewrite (login_run r s p Hd Hve). cbn zeta.
      destruct (Login _ _ _ s) as [[token|e] s']; run_delegated.
    + unfold serve, handleLoginUser. rewrite Hd, Hve. apply RunPanicked.
  - destruct (json.Decode (http.Body r)) as [[p|]|e] eqn:Hd;
      try discriminate.
    + unfold handleRefreshToken.
      destruct (jwt.Parse (reqres.RefreshTokenRequest.Token p)
                  (keyFunc SecretKey)) as [tok [e|]] eqn:Hp.
      { rewrite (refresh_parse_error_run SecretKey jwt.Parse r s p tok e
                   Hd Hve Hp).
        run_rejected. }
      destruct (Parse_no_error_valid SecretKey _ _ Hp)
        as (t & -> & Hvalid & _).
      destruct (isString (jwt.Claims t !! "sub")
                && isString (jwt.Claims t !! "username")
                && isString (jwt.Claims t !! "role")) eqn:Hclaims.
      * destruct (jwt.Claims t !! "sub") as [[| | |sub| |]|] eqn:Hsub;
          try discriminate.
        destruct (jwt.Claims t !! "username") as [[| | |username| |]|]
          eqn:Huser; try discriminate.
        destruct (jwt.Claims t !! "role") as [[| | |role| |]|] eqn:Hrole;
          try discriminate.
        rewrite (refresh_valid_run SecretKey jwt.Parse r s p t sub username
                   role Hd Hve Hp Hvalid Hsub Huser Hrole).
        cbn zeta.
        destruct (RefreshToken _ _ _ _ s) as [[token|e] s']; run_delegated.
      * destruct (refresh_claims_panic_run SecretKey jwt.Parse r s p t
                    Hd Hve Hp Hvalid Hclaims) as [msg ->].
        apply RunPanicked.
    + unfold serve, handleRefreshToken, handleRefreshTokenWith.
      rewrite Hd, Hve. apply RunPanicked.
Qed.

Ltac run_shapes h r s :=
  unfold final;
  let HR := fresh "HR" in
  pose proof (handle_Run h r s) as HR;
  destruct (serve (handle SecretKey h r) s) as [o σ];
  inversion HR as [pmsg|st context e Hrej|c s' rw Hc Hrw]; subst;
  cbn [fst snd svcState calls w].

Ltac status_facts :=
  unfold http.StatusOK, http.StatusCreated, http.StatusBadRequest,
    http.StatusForbidden, http.StatusInternalServerError in *.

(** X1: a handler calls the service at most once per request, and then the
    method it stands for; when it makes no call the service state is the
    one it started from. *)
Theorem handler_calls_service_at_most_once
    (h : HandlerName) (r : http.Request) (s : S) :
  (calls (final (handle SecretKey h r) s) = [] ∧
   svcState (final (handle SecretKey h r) s) = s) ∨
  (∃ c, calls (final (handle SecretKey h r) s) = [c] ∧ calledBy c = h).
Proof.
  run_shapes h r s.
  - left. split; reflexivity.
  - left. split; reflexivity.
  - right. exists c. split; reflexivity.
Qed.

(** X2: a handler that returns has written exactly one response, and its
    status is one of the codes of that handler: 201, 400, 500 for create
    user; 200, 400, 500 for get user and login; 200, 400, 403, 500 for
    refresh token. *)
Theorem returned_run_status
    (h : HandlerName) (r : http.Request) (s : S) :
  (serve (handle SecretKey h r) s).1 = Returned () →
  http.wroteHeader (w (final (handle SecretKey h r) s)) = true ∧
  In (http.status (w (final (handle SecretKey h r) s))) (statuses h).
Proof.
  run_shapes h r s; intros Hret; try discriminate Hret.
  - split; [reflexivity|]. cbn [http.status errorResponse].
    destruct h; cbn [In rejections statuses] in *;
      intuition (simplify_eq; tauto).
  - split; [destruct Hrw; reflexivity|].
    destruct Hrw; destruct (calledBy c);
      cbn [http.status errorResponse successResponse successStatus
             serviceFailure fst In statuses]; tauto.
Qed.

(** X3: a handler that panics has written nothing and has not called the
    service: the ResponseWriter is as fresh as it was handed over, the call
    log is empty and the service state is unchanged. *)
Theorem panic_leaves_nothing
    (h : HandlerName) (r : http.Request) (s : S) (msg : string) :
  (serve (handle SecretKey h r) s).1 = Panicked msg →
  w (final (handle SecretKey h r) s) = http.newResponseWriter ∧
  calls (final (handle SecretKey h r) s) = [] ∧
  svcState (final (handle SecretKey h r) s) = s.
Proof.
  run_shapes h r s; intros Hp; try discriminate Hp.
  split_and!; reflexivity.
Qed.

(** X4: the success status of a handler (201 for create user, 200 for the
    others) is only sent after the service was called, once, through the
    method of that handler. *)
Theorem success_status_needs_service_call
    (h : HandlerName) (r : http.Request) (s : S) :
  http.status (w (final (handle SecretKey h r) s)) = successStatus h →
  ∃ c, calls (final (handle SecretKey h r) s) = [c] ∧ calledBy c = h.
Proof.
  run_shapes h r s.
  - destruct h; cbn; status_facts; discriminate.
  - cbn [http.status errorResponse]. intros ->.
    destruct h; cbn [In rejections successStatus] in Hrej; status_facts;
      intuition discriminate.
  - intros _. exists c. split; reflexivity.
Qed.

(** X5: a 403 comes only from the refresh handler, with the context
    "Access not allowed", and never after a service call. *)
Theorem forbidden_only_before_service
    (h : HandlerName) (r : http.Request) (s : S) :
  http.status (w (final (handle SecretKey h r) s)) = http.StatusForbidden →
  h = RefreshTokenHandler ∧
  calls (final (handle SecretKey h r) s) = [] ∧
  svcState (final (handle SecretKey h r) s) = s ∧
  ∃ e, http.body (w (final (handle SecretKey h r) s))
       = errorBody "Access not allowed" e.
Proof.
  run_shapes h r s.
  - cbn; status_facts; discriminate.
  - cbn [http.status http.body errorResponse]. intros ->.
    destruct h; cbn [In rejections] in Hrej; status_facts;
      intuition (try discriminate); simplify_eq; eauto.
  - destruct Hrw; destruct (calledBy c);
      cbn [http.status errorResponse successResponse successStatus
             serviceFailure fst]; status_facts; discriminate.
Qed.

(** X6: every error response (status 400 or more) of every handler is sent
    with the Content-Type header [application/json]. *)
Theorem error_response_content_type
    (h : HandlerName) (r : http.Request) (s : S) :
  400 ≤ http.status (w (final (handle SecretKey h r) s)) →
  http.ContentType (w (final (handle SecretKey h r) s))
    = Some ["application/json"].
Proof.
  run_shapes h r s.
  - cbn. lia.
  - intros _. reflexivity.
  - destruct Hrw; try (intros _; reflexivity).
    destruct (calledBy c); cbn [http.status successResponse successStatus];
      status_facts; lia.
Qed.

(** ** Handler by handler *)

(** X7: when the route id passes validation, the get-user handler calls
    [GetByID] exactly once with that id (the empty string when the route has
    none).  A user the service returns is answered 200 with the body
    [{"user": <its JSON>}]; an error of the service is answered 500 with the
    message "unable to get user: <error>". *)
Theorem get_user_calls_service_once (r : http.Request) (s : S) :
  validateGetUserByID (default "" (http.Vars r !! "id")) = None →
  calls (final (handleGetUserByID r) s)
    = [CallGetByID (default "" (http.Vars r !! "id"))] ∧
  (∀ user s' userJSON,
     GetByID (default "" (http.Vars r !! "id")) s = (Ok user, s') →
     json.Marshal (json.toJSON user) = Ok userJSON →
     http.status (w (final (handleGetUserByID r) s)) = http.StatusOK ∧
     http.body (w (final (handleGetUserByID r) s)) = userBody userJSON ∧
     svcState (final (handleGetUserByID r) s) = s') ∧
  (∀ e s',
     GetByID (default "" (http.Vars r !! "id")) s = (Err e, s') →
     http.status (w (final (handleGetUserByID r) s))
       = http.StatusInternalServerError ∧
     http.body (w (final (handleGetUserByID r) s))
       = errorBody "unable to get user" e ∧
     svcState (final (handleGetUserByID r) s) = s').
Proof.
  intros Hv. unfold final. rewrite (get_run r s Hv). cbn zeta.
  destruct (GetByID _ s) as [[user|e] s1].
  - destruct (json.Marshal (json.toJSON user)) as [js|e] eqn:Hm.
    + split_and!; [reflexivity | | intros ? ? [=]].
      intros user' s' userJSON [= <- <-]. rewrite Hm. intros [= <-].
      split_and!; reflexivity.
    + split_and!; [reflexivity | | intros ? ? [=]].
      intros user' s' userJSON [= <- <-]. rewrite Hm. intros [=].
  - split_and!; [reflexivity | intros ? ? ? [=] |].
    intros e' s' [= <- <-]. split_and!; reflexivity.
Qed.

(** X8: when the body decodes and validates, the login handler calls
    [Login] exactly once with the username and password of the payload and
    the Referer of the request.  A token the service returns is answered 200
    with the body [{"token": <token>}]; an error of the service, whatever it
    is, is answered 400 with the message "unable to log in user: <error>". *)
Theorem login_calls_service_once
    (r : http.Request) (s : S) (p : reqres.LoginRequest.t) :
  json.Decode (http.Body r) = Ok (Some p) →
  validateLoginUser (Some p) = None →
  calls (final (handleLoginUser r) s)
    = [CallLogin (reqres.LoginRequest.Username p)
         (reqres.LoginRequest.Password p) (http.Referer r)] ∧
  (∀ token s',
     Login (reqres.LoginRequest.Username p) (reqres.LoginRequest.Password p)
       (http.Referer r) s = (Ok token, s') →
     http.status (w (final (handleLoginUser r) s)) = http.StatusOK ∧
     http.body (w (final (handleLoginUser r) s)) = tokenBody token ∧
     svcState (final (handleLoginUser r) s) = s') ∧
  (∀ e s',
     Login (reqres.LoginRequest.Username p) (reqres.LoginRequest.Password p)
       (http.Referer r) s = (Err e, s') →
     http.status (w (final (handleLoginUser r) s)) = http.StatusBadRequest ∧
     http.body (w (final (handleLoginUser r) s))
       = errorBody "unable to log in user" e ∧
     svcState (final (handleLoginUser r) s) = s').
Proof.
  intros Hd Hv. unfold final. rewrite (login_run r s p Hd Hv). cbn zeta.
  destruct (Login _ _ _ s) as [[token|e] s1].
  - split_and!; [reflexivity | | intros ? ? [=]].
    intros token' s' [= <- <-]. split_and!; reflexivity.
  - split_and!; [reflexivity | intros ? ? [=] |].
    intros e' s' [= <- <-]. split_and!; reflexivity.
Qed.

(** X9: when [Create] fails, the create handler answers 500 with the
    message "unable to add user: <error>", whatever the error (a duplicate
    and an internal failure are not told apart), and leaves the service in
    the state the failed call left it. *)
Theorem create_service_failure_500
    (r : http.Request) (s : S) (p : reqres.CreateUserRequest.t)
    (e : error) (s' : S) :
  json.Decode (http.Body r) = Ok (Some p) →
  validateCreateUser (Some p) = None →
  Create (newUserOf p) s = (Err e, s') →
  http.status (w (final (handleCreateUser r) s))
    = http.StatusInternalServerError ∧
  http.body (w (final (handleCreateUser r) s))
    = errorBody "unable to add user" e ∧
  calls (final (handleCreateUser r) s) = [CallCreate (newUserOf p)] ∧
  svcState (final (handleCreateUser r) s) = s'.
Proof.
  intros Hd Hv Hc. unfold final. rewrite (create_run r s p Hd Hv). cbn zeta.
  fold (newUserOf p). rewrite Hc. split_and!; reflexivity.
Qed.

(** X10: when [Create] returned a user whose JSON cannot be marshalled,
    the create handler answers 500 with the message "unable to marshal json
    response: <error>" although the call to [Create] has been made: the
    service stays in the state in which the user exists. *)
Theorem create_marshal_failure_500
    (r : http.Request) (s : S) (p : reqres.CreateUserRequest.t)
    (user : U) (e : error) (s' : S) :
  json.Decode (http.Body r) = Ok (Some p) →
  validateCreateUser (Some p) = None →
  Create (newUserOf p) s = (Ok user, s') →
  json.Marshal (json.toJSON user) = Err e →
  http.status (w (final (handleCreateUser r) s))
    = http.StatusInternalServerError ∧
  http.body (w (final (handleCreateUser r) s))
    = errorBody "unable to marshal json response" e ∧
  calls (final (handleCreateUser r) s) = [CallCreate (newUserOf p)] ∧
  svcState (final (handleCreateUser r) s) = s'.
Proof.
  intros Hd Hv Hc Hm. unfold final. rewrite (create_run r s p Hd Hv).
  cbn zeta. fold (newUserOf p). rewrite Hc, Hm. split_and!; reflexivity.
Qed.

(** X11: when the token verifies and its three claims are strings but
    [RefreshToken] fails, the refresh handler answers 500 with the message
    "unable to refresh token: <error>". *)
Theorem refresh_service_failure_500
    (r : http.Request) (s : S) (p : reqres.RefreshTokenRequest.t)
    (claims : gmap string json.Value) (sub username role : string)
    (e : error) (s' : S) :
  json.Decode (http.Body r) = Ok (Some p) →
  validateRefreshToken (Some p) = None →
  verifiedClaims SecretKey (reqres.RefreshTokenRequest.Token p)
    = Some claims →
  claims !! "sub" = Some (json.String sub) →
  claims !! "username" = Some (json.String username) →
  claims !! "role" = Some (json.String role) →
  RefreshToken sub username role (http.Referer r) s = (Err e, s') →
  http.status (w (final (handleRefreshToken SecretKey r) s))
    = http.StatusInternalServerError ∧
  http.body (w (final (handleRefreshToken SecretKey r) s))
    = errorBody "unable to refresh token" e ∧
  svcState (final (handleRefreshToken SecretKey r) s) = s'.
Proof.
  intros Hd Hv Hc Hsub Huser Hrole Hsvc.
  destruct (Parse_verified SecretKey _ _ Hc) as (tok & Hp & Hvalid & <-).
  unfold final, handleRefreshToken.
  rewrite (refresh_valid_run SecretKey jwt.Parse r s p tok sub username role
             Hd Hv Hp Hvalid Hsub Huser Hrole).
  cbn zeta. rewrite Hsvc. split_and!; reflexivity.
Qed.

(** X12: a token that does not verify under the secret (too few or too many
    segments, a segment that does not decode, an [alg] other than HS256, a
    signature HMAC-SHA256 rejects for the secret, or time claims that do not
    hold) is answered 403 with a message that starts "Access not allowed: ",
    and the service is not called. *)
Theorem refresh_unverified_token_403
    (r : http.Request) (s : S) (p : reqres.RefreshTokenRequest.t) :
  json.Decode (http.Body r) = Ok (Some p) →
  validateRefreshToken (Some p) = None →
  verifiedClaims SecretKey (reqres.RefreshTokenRequest.Token p) = None →
  http.status (w (final (handleRefreshToken SecretKey r) s))
    = http.StatusForbidden ∧
  (∃ e, http.body (w (final (handleRefreshToken SecretKey r) s))
        = errorBody "Access not allowed" e) ∧
  calls (final (handleRefreshToken SecretKey r) s) = [] ∧
  svcState (final (handleRefreshToken SecretKey r) s) = s.
Proof.
  intros Hd Hv Hc. unfold final, handleRefreshToken.
  destruct (jwt.Parse (reqres.RefreshTokenRequest.Token p)
              (keyFunc SecretKey)) as [tok [e|]] eqn:Hp.
  - rewrite (refresh_parse_error_run SecretKey jwt.Parse r s p tok e
               Hd Hv Hp).
    split_and!; [reflexivity | by exists e | reflexivity | reflexivity].
  - destruct (Parse_no_error_valid SecretKey _ _ Hp) as (t & _ & _ & Hc').
    rewrite Hc in Hc'. discriminate.
Qed.

(** X13: the get-user handler reads nothing of the request but the route
    variable [id]: two requests with the same id, whatever their bodies and
    headers, leave the same response, call log and service state. *)
Theorem get_user_reads_only_the_id (r1 r2 : http.Request) (s : S) :
  http.Vars r1 !! "id" = http.Vars r2 !! "id" →
  serve (handleGetUserByID r1) s = serve (handleGetUserByID r2) s.
Proof.
  intros Hid. unfold serve, handleGetUserByID. rewrite Hid. reflexivity.
Qed.

(** X14: the refresh handler asserts the claims in the order [sub],
    [username], [role]: on a verified token the panic reports the dynamic
    type of the first of them that is not a string ([nil] for a claim that
    is absent). *)
Theorem refresh_panic_names_first_offender
    (r : http.Request) (s : S) (p : reqres.RefreshTokenRequest.t)
    (claims : gmap string json.Value) (v : option json.Value) :
  json.Decode (http.Body r) = Ok (Some p) →
  validateRefreshToken (Some p) = None →
  verifiedClaims SecretKey (reqres.RefreshTokenRequest.Token p)
    = Some claims →
  firstOffender claims = Some v →
  (serve (handleRefreshToken SecretKey r) s).1
  = Panicked ("interface conversion: interface {} is "
              +:+ json.typeName v +:+ ", not string").
Proof.
  intros Hd Hv Hc Hoff.
  destruct (Parse_verified SecretKey _ _ Hc) as (tok & Hp & Hvalid & <-).
  unfold serve, handleRefreshToken, handleRefreshTokenWith.
  rewrite Hd, Hv. cbn [bind deref ret]. rewrite Hp.
  cbn [bind deref ret]. rewrite Hvalid. cbn [negb].
  unfold firstOffender in Hoff.
  destruct (jwt.Claims tok !! "sub") as [[]|];
    cbn [isString negb] in Hoff; try (injection Hoff as <-; reflexivity).
  destruct (jwt.Claims tok !! "username") as [[]|];
    cbn [isString negb] in Hoff; try (injection Hoff as <-; reflexivity).
  destruct (jwt.Claims tok !! "role") as [[]|];
    cbn [isString negb] in Hoff; try (injection Hoff as <-; reflexivity).
  discriminate Hoff.
Qed.

End Coverage.

(** ** The further properties at concrete requests *)

Section CoverageDeployment.

#[local] Existing Instance Demo.encoding.
#[local] Existing Instance Demo.formatter.
#[local] Existing Instance Demo.User_toJSON.
#[local] Existing Instance Demo.jwtLibrary.
#[local] Existing Instance Demo.validators.
#[local] Existing Instance Demo.service.
#[local] Existing Instance Demo.createDecoder.
#[local] Existing Instance Demo.loginDecoder.
#[local] Existing Instance Demo.refreshDecoder.

Lemma returned_run_status_witness :
  (serve (handle Demo.secret CreateUserHandler (Demo.request Demo.createBody))
     Demo.emptyStore).1 = Returned () ∧
  http.wroteHeader
    (w (final (handle Demo.secret CreateUserHandler
                 (Demo.request Demo.createBody)) Demo.emptyStore)) = true ∧
  In (http.status
        (w (final (handle Demo.secret CreateUserHandler
                     (Demo.request Demo.createBody)) Demo.emptyStore)))
     (statuses CreateUserHandler).
Proof.
  split; [vm_compute; reflexivity|].
  apply (returned_run_status Demo.secret CreateUserHandler
           (Demo.request Demo.createBody) Demo.emptyStore).
  vm_compute; reflexivity.
Defined.

Lemma panic_leaves_nothing_witness :
  (serve (handle Demo.secret RefreshTokenHandler
            (Demo.request (Demo.refreshBody Demo.noRoleToken)))
     Demo.emptyStore).1
    = Panicked "interface conversion: interface {} is nil, not string" ∧
  w (final (handle Demo.secret RefreshTokenHandler
              (Demo.request (Demo.refreshBody Demo.noRoleToken)))
       Demo.emptyStore) = http.newResponseWriter ∧
  calls (final (handle Demo.secret RefreshTokenHandler
                  (Demo.request (Demo.refreshBody Demo.noRoleToken)))
           Demo.emptyStore) = [] ∧
  svcState (final (handle Demo.secret RefreshTokenHandler
                     (Demo.request (Demo.refreshBody Demo.noRoleToken)))
              Demo.emptyStore) = Demo.emptyStore.
Proof.
  split; [vm_compute; reflexivity|].
  apply (panic_leaves_nothing Demo.secret RefreshTokenHandler
           (Demo.request (Demo.refreshBody Demo.noRoleToken))
           Demo.emptyStore
           "interface conversion: interface {} is nil, not string").
  vm_compute; reflexivity.
Defined.

Lemma success_status_needs_service_call_witness :
  http.status
    (w (final (handle Demo.secret LoginHandler (Demo.request Demo.loginBody))
          Demo.emptyStore)) = successStatus LoginHandler ∧
  ∃ c,
    calls (final (handle Demo.secret LoginHandler
                    (Demo.request Demo.loginBody)) Demo.emptyStore) = [c] ∧
    calledBy c = LoginHandler.
Proof.
  split; [vm_compute; reflexivity|].
  apply (success_status_needs_service_call Demo.secret LoginHandler
           (Demo.request Demo.loginBody) Demo.emptyStore).
  vm_compute; reflexivity.
Defined.

Lemma forbidden_only_before_service_witness :
  http.status
    (w (final (handle Demo.secret RefreshTokenHandler
                 (Demo.request (Demo.refreshBody Demo.hs384Token)))
          Demo.emptyStore)) = http.StatusForbidden ∧
  RefreshTokenHandler = RefreshTokenHandler ∧
  calls (final (handle Demo.secret RefreshTokenHandler
                  (Demo.request (Demo.refreshBody Demo.hs384Token)))
           Demo.emptyStore) = [] ∧
  svcState (final (handle Demo.secret RefreshTokenHandler
                     (Demo.request (Demo.refreshBody Demo.hs384Token)))
              Demo.emptyStore) = Demo.emptyStore ∧
  ∃ e,
    http.body
      (w (final (handle Demo.secret RefreshTokenHandler
                   (Demo.request (Demo.refreshBody Demo.hs384Token)))
            Demo.emptyStore)) = errorBody "Access not allowed" e.
Proof.
  split; [vm_compute; reflexivity|].
  apply (forbidden_only_before_service Demo.secret RefreshTokenHandler
           (Demo.request (Demo.refreshBody Demo.hs384Token))
           Demo.emptyStore).
  vm_compute; reflexivity.
Defined.

Lemma error_response_content_type_witness :
  400 ≤ http.status
          (w (final (handle Demo.secret LoginHandler
                       (Demo.request Demo.loginNoPasswordBody))
                Demo.emptyStore)) ∧
  http.ContentType
    (w (final (handle Demo.secret LoginHandler
                 (Demo.request Demo.loginNoPasswordBody)) Demo.emptyStore))
    = Some ["application/json"].
Proof.
  split; [vm_compute; discriminate|].
  apply (error_response_content_type Demo.secret LoginHandler
           (Demo.request Demo.loginNoPasswordBody) Demo.emptyStore).
  vm_compute; discriminate.
Defined.

Lemma get_user_calls_service_once_witness :
  calls (final (handleGetUserByID (Demo.getRequest "u1" "")) [Demo.alice])
    = [CallGetByID "u1"] ∧
  http.status
    (w (final (handleGetUserByID (Demo.getRequest "u1" "")) [Demo.alice]))
    = http.StatusOK ∧
  http.status
    (w (final (handleGetUserByID (Demo.getRequest "u2" "")) [Demo.alice]))
    = http.StatusInternalServerError ∧
  http.body
    (w (final (handleGetUserByID (Demo.getRequest "u2" "")) [Demo.alice]))
    = errorBody "unable to get user" "user not found".
Proof.
  destruct (get_user_calls_service_once (Demo.getRequest "u1" "")
              [Demo.alice]) as (Hcalls & Hok & _);
    [vm_compute; reflexivity|].
  destruct (get_user_calls_service_once (Demo.getRequest "u2" "")
              [Demo.alice]) as (_ & _ & Hfail);
    [vm_compute; reflexivity|].
  split_and!.
  - exact Hcalls.
  - refine (proj1 (Hok Demo.alice [Demo.alice] _ _ _));
      vm_compute; reflexivity.
  - exact (proj1 (Hfail "user not found" [Demo.alice] eq_refl)).
  - exact (proj1 (proj2 (Hfail "user not found" [Demo.alice] eq_refl))).
Defined.

Lemma login_calls_service_once_witness :
  calls (final (handleLoginUser (Demo.request Demo.loginBody))
           Demo.emptyStore)
    = [CallLogin "alice" "rabbit" "https://buzz.example/app"] ∧
  http.status
    (w (final (handleLoginUser (Demo.request Demo.loginBody))
          Demo.emptyStore)) = http.StatusOK ∧
  http.body
    (w (final (handleLoginUser (Demo.request Demo.loginBody))
          Demo.emptyStore)) = tokenBody "token-of-alice".
Proof.
  destruct (login_calls_service_once (Demo.request Demo.loginBody)
              Demo.emptyStore
              {| reqres.LoginRequest.Username := "alice";
                 reqres.LoginRequest.Password := "rabbit" |})
    as (Hcalls & Hok & _); [vm_compute; reflexivity ..|].
  split; [exact Hcalls|].
  destruct (Hok "token-of-alice" Demo.emptyStore eq_refl) as (Hst & Hb & _).
  split; assumption.
Defined.

Lemma create_service_failure_500_witness :
  Create (newUserOf Demo.createPayload) [Demo.alice]
    = (Err "user already exists", [Demo.alice]) ∧
  http.status
    (w (final (handleCreateUser (Demo.request Demo.createBody))
          [Demo.alice])) = http.StatusInternalServerError ∧
  http.body
    (w (final (handleCreateUser (Demo.request Demo.createBody))
          [Demo.alice])) = errorBody "unable to add user" "user already exists" ∧
  calls (final (handleCreateUser (Demo.request Demo.createBody))
           [Demo.alice]) = [CallCreate (newUserOf Demo.createPayload)] ∧
  svcState (final (handleCreateUser (Demo.request Demo.createBody))
              [Demo.alice]) = [Demo.alice].
Proof.
  split; [vm_compute; reflexivity|].
  apply (create_service_failure_500 (Demo.request Demo.createBody)
           [Demo.alice] Demo.createPayload "user already exists"
           [Demo.alice]); vm_compute; reflexivity.
Defined.

Lemma refresh_unverified_token_403_witness :
  verifiedClaims "another secret" Demo.aliceToken = None ∧
  http.status
    (w (final (handleRefreshToken "another secret"
                 (Demo.request (Demo.refreshBody Demo.aliceToken)))
          Demo.emptyStore)) = http.StatusForbidden ∧
  (∃ e,
     http.body
       (w (final (handleRefreshToken "another secret"
                    (Demo.request (Demo.refreshBody Demo.aliceToken)))
             Demo.emptyStore)) = errorBody "Access not allowed" e) ∧
  calls (final (handleRefreshToken "another secret"
                  (Demo.request (Demo.refreshBody Demo.aliceToken)))
           Demo.emptyStore) = [] ∧
  svcState (final (handleRefreshToken "another secret"
                     (Demo.request (Demo.refreshBody Demo.aliceToken)))
              Demo.emptyStore) = Demo.emptyStore.
Proof.
  split; [vm_compute; reflexivity|].
  apply (refresh_unverified_token_403 "another secret"
           (Demo.request (Demo.refreshBody Demo.aliceToken))
           Demo.emptyStore
           {| reqres.RefreshTokenRequest.Token := Demo.aliceToken |});
    vm_compute; reflexivity.
Defined.

Lemma get_user_reads_only_the_id_witness :
  http.Vars (Demo.getRequest "u1" "{") !! "id"
    = http.Vars {| http.Body := "anything";
                   http.ReqHeader := {[ "Referer" := ["https://elsewhere"] ]};
                   http.Vars := {[ "id" := "u1" ]} |} !! "id" ∧
  serve (handleGetUserByID (Demo.getRequest "u1" "{")) [Demo.alice]
  = serve (handleGetUserByID
             {| http.Body := "anything";
                http.ReqHeader := {[ "Referer" := ["https://elsewhere"] ]};
                http.Vars := {[ "id" := "u1" ]} |}) [Demo.alice].
Proof.
  split; [vm_compute; reflexivity|].
  apply (get_user_reads_only_the_id (Demo.getRequest "u1" "{")
           {| http.Body := "anything";
              http.ReqHeader := {[ "Referer" := ["https://elsewhere"] ]};
              http.Vars := {[ "id" := "u1" ]} |} [Demo.alice]).
  vm_compute; reflexivity.
Defined.

Lemma refresh_panic_names_first_offender_witness :
  firstOffender
    ({[ "sub" := json.String "u1"; "username" := json.String "alice" ]}
       : gmap string json.Value) = Some None ∧
  (serve (handleRefreshToken Demo.secret
            (Demo.request (Demo.refreshBody Demo.noRoleToken)))
     Demo.emptyStore).1
  = Panicked ("interface conversion: interface {} is "
              +:+ json.typeName None +:+ ", not string").
Proof.
  split; [vm_compute; reflexivity|].
  apply (refresh_panic_names_first_offender Demo.secret
           (Demo.request (Demo.refreshBody Demo.noRoleToken))
           Demo.emptyStore
           {| reqres.RefreshTokenRequest.Token := Demo.noRoleToken |}
           {[ "sub" := json.String "u1";
              "username" := json.String "alice" ]} None);
    vm_compute; reflexivity.
Defined.

End CoverageDeployment.

Section CoverageDown.

#[local] Existing Instance Demo.encoding.
#[local] Existing Instance Demo.formatter.
#[local] Existing Instance Demo.jwtLibrary.
#[local] Existing Instance Demo.validators.
#[local] Existing Instance Demo.createDecoder.
#[local] Existing Instance Demo.loginDecoder.
#[local] Existing Instance Demo.refreshDecoder.

Lemma create_marshal_failure_500_witness :
  json.Marshal (json.toJSON (ToJSON := DemoDown.User_toJSON) Demo.alice)
    = Err "json: unsupported value" ∧
  http.status
    (w (final (handleCreateUser (H := DemoDown.User_toJSON)
                 (UserService0 := Demo.service)
                 (Demo.request Demo.createBody)) Demo.emptyStore))
    = http.StatusInternalServerError ∧
  http.body
    (w (final (handleCreateUser (H := DemoDown.User_toJSON)
                 (UserService0 := Demo.service)
                 (Demo.request Demo.createBody)) Demo.emptyStore))
    = errorBody "unable to marshal json response" "json: unsupported value" ∧
  calls (final (handleCreateUser (H := DemoDown.User_toJSON)
                  (UserService0 := Demo.service)
                  (Demo.request Demo.createBody)) Demo.emptyStore)
    = [CallCreate (newUserOf Demo.createPayload)] ∧
  svcState (final (handleCreateUser (H := DemoDown.User_toJSON)
                     (UserService0 := Demo.service)
                     (Demo.request Demo.createBody)) Demo.emptyStore)
    = [Demo.alice].
Proof.
  split; [vm_compute; reflexivity|].
  apply (create_marshal_failure_500 (H := DemoDown.User_toJSON)
           (UserService0 := Demo.service)
           (Demo.request Demo.createBody) Demo.emptyStore
           Demo.createPayload Demo.alice "json: unsupported value"
           [Demo.alice]); vm_compute; reflexivity.
Defined.

Lemma refresh_service_failure_500_witness :
  RefreshToken (UserService := DemoDown.service) "u1" "alice" "admin"
    "https://buzz.example/app" Demo.emptyStore
    = (Err "database unavailable", Demo.emptyStore) ∧
  http.status
    (w (final (handleRefreshToken (UserService0 := DemoDown.service)
                 Demo.secret
                 (Demo.request (Demo.refreshBody Demo.aliceToken)))
          Demo.emptyStore)) = http.StatusInternalServerError ∧
  http.body
    (w (final (handleRefreshToken (UserService0 := DemoDown.service)
                 Demo.secret
                 (Demo.request (Demo.refreshBody Demo.aliceToken)))
          Demo.emptyStore))
    = errorBody "unable to refresh token" "database unavailable" ∧
  svcState (final (handleRefreshToken (UserService0 := DemoDown.service)
                     Demo.secret
                     (Demo.request (Demo.refreshBody Demo.aliceToken)))
              Demo.emptyStore) = Demo.emptyStore.
Proof.
  split; [vm_compute; reflexivity|].
  apply (refresh_service_failure_500 (UserService0 := DemoDown.service)
           Demo.secret
           (Demo.request (Demo.refreshBody Demo.aliceToken))
           Demo.emptyStore
           {| reqres.RefreshTokenRequest.Token := Demo.aliceToken |}
           {[ "sub" := json.String "u1";
              "username" := json.String "alice";
              "role" := json.String "admin" ]}
           "u1" "alice" "admin" "database unavailable" Demo.emptyStore);
    vm_compute; reflexivity.
Defined.

End CoverageDown.
